(** * WinRT video capture: capture device, format selection and facade

    A shallow embedding of the WinRT video capture module (the classes
    [CaptureDevice] and [VideoCaptureWinRT], which the source file carries
    after the test reporter and the device information class) and of the
    parts of the platform it drives, followed by the properties of the
    capture session that the specification states about it.

    Conventions.
    - 32-bit integers are [Z] with the wrap-around written out ([Int32]).
    - [float] is IEEE binary32, through [SpecFloat] ([Float32]).
    - A C++/CX handle ([T^]) is an [option]: [None] is [nullptr].
    - The platform (WinRT media capture, device enumeration) is an oracle
      [Native] handed to every operation; the calls an operation makes on
      the platform are recorded, in order, in a list of [event]s.
    - An operation ends with an [outcome]: it returns, or a
      [Platform::Exception] leaves it, or the call does not come back (a
      null handle is dereferenced, or the task run time ends the process). *)

From Stdlib Require Import ZArith List String Ascii Bool Lia.
From Stdlib.Strings Require Import Byte.
From Stdlib Require Import Floats.SpecFloat.
Import ListNotations.
Open Scope string_scope.
Open Scope list_scope.
Open Scope Z_scope.

(** ** 32-bit machine integers *)

Module Int32.

Definition INT_MAX : Z := 2147483647.
Definition INT_MIN : Z := -2147483648.

(** Conversion to [unsigned int] / [UINT32]: reduction modulo 2^32. *)
Definition to_uint32 (z : Z) : Z := z mod 4294967296.

(** Conversion to [int] / [int32_t]: two's complement, as the Microsoft
    compiler defines the out-of-range cases. *)
Definition to_int32 (z : Z) : Z := (z + 2147483648) mod 4294967296 - 2147483648.

(** [abs] of <stdlib.h> on [int].  The absolute value of [INT_MIN] is not
    representable; the Microsoft run time returns the argument unchanged. *)
Definition abs (x : Z) : Z := if x =? INT_MIN then INT_MIN else Z.abs x.

(** [abs((int)(a - b))] where the subtraction is carried out in
    [unsigned int] (one operand is a [UINT32]) or wraps in [int]. *)
Definition abs_diff (a b : Z) : Z := abs (to_int32 (to_uint32 (a - b))).

End Int32.

(** ** Single-precision floats *)

Module Float32.

Definition prec : Z := 24.
Definition emax : Z := 128.

(** [(float)n] for an integer [n]: round to nearest, ties to even. *)
Definition of_int (n : Z) : spec_float := binary_normalize prec emax n 0 false.

Definition div (x y : spec_float) : spec_float := SFdiv prec emax x y.

(** [(int)f]: truncation toward zero.  The conversion of a NaN, of an
    infinity or of a value outside [int] is not defined by the language;
    the x86 conversion instruction yields [INT_MIN] there. *)
Definition to_int (f : spec_float) : Z :=
  match f with
  | S754_zero _ => 0
  | S754_finite s m e =>
      let mag := if 0 <=? e then Zpos m * 2 ^ e else Zpos m / 2 ^ (- e) in
      let v := if s then - mag else mag in
      if (Int32.INT_MIN <=? v) && (v <=? Int32.INT_MAX) then v else Int32.INT_MIN
  | S754_infinity _ | S754_nan => Int32.INT_MIN
  end.

End Float32.

(** ** Strings *)

(** [towlower] on the ASCII range. *)
Definition towlower (c : ascii) : ascii :=
  let n := nat_of_ascii c in
  if (65 <=? n)%nat && (n <=? 90)%nat then ascii_of_nat (n + 32) else c.

Definition wchar (c : ascii) : Z := Z.of_nat (nat_of_ascii c).

(** [_wcsicmp]: comparison of the lower-cased strings; zero when they agree. *)
Fixpoint _wcsicmp (s1 s2 : string) : Z :=
  match s1, s2 with
  | EmptyString, EmptyString => 0
  | EmptyString, String c2 _ => - wchar (towlower c2)
  | String c1 _, EmptyString => wchar (towlower c1)
  | String c1 r1, String c2 r2 =>
      if Ascii.eqb (towlower c1) (towlower c2) then _wcsicmp r1 r2
      else wchar (towlower c1) - wchar (towlower c2)
  end.

Definition strlen (s : string) : Z := Z.of_nat (String.length s).

(** [strncmp s1 s2 n]: comparison of at most [n] characters. *)
Fixpoint strncmp (s1 s2 : string) (n : nat) : Z :=
  match n with
  | O => 0
  | S n' =>
      match s1, s2 with
      | EmptyString, EmptyString => 0
      | EmptyString, String c2 _ => - wchar c2
      | String c1 _, EmptyString => wchar c1
      | String c1 r1, String c2 r2 =>
          if Ascii.eqb c1 c2 then strncmp r1 r2 n' else wchar c1 - wchar c2
      end
  end.

(** ** Platform data *)

(** The subtype names of [Windows::Media::MediaProperties::MediaEncodingSubtypes]
    that the source refers to. *)
Module MediaEncodingSubtypes.
Definition Yv12 : string := "YV12".
Definition Yuy2 : string := "YUY2".
Definition Iyuv : string := "IYUV".
Definition Rgb24 : string := "RGB24".
Definition Rgb32 : string := "RGB32".
Definition Mjpg : string := "MJPG".
Definition Nv12 : string := "NV12".
End MediaEncodingSubtypes.

(** Modelled from the spec: the enumeration [RawVideoType] is declared
    outside the sources at hand; these are the pixel formats the
    specification lists, under the names the source uses for them. *)
Inductive RawVideoType : Set :=
| kVideoYV12 | kVideoYUY2 | kVideoI420 | kVideoIYUV | kVideoRGB24
| kVideoARGB | kVideoMJPEG | kVideoNV12 | kVideoUnknown.

(** Modelled from the spec: [VideoCaptureCapability] is declared outside the
    sources at hand; the fields are those the source reads and writes.  The
    three numbers are 32-bit integers. *)
Record VideoCaptureCapability : Set := mkCapability {
  width : Z;
  height : Z;
  maxFPS : Z;
  rawType : RawVideoType
}.

(** [MediaRatio]: two [UINT32]. *)
Record MediaRatio : Set := mkRatio {
  Numerator : Z;
  Denominator : Z
}.

(** [IVideoEncodingProperties] / [VideoEncodingProperties]: the native
    description of a stream format.  [Width] and [Height] are [UINT32]. *)
Record VideoEncodingProperties : Set := mkProps {
  Subtype : string;
  Width : Z;
  Height : Z;
  FrameRate : MediaRatio
}.

(** [(int)((float)r->Numerator / (float)r->Denominator)]. *)
Definition frame_rate_fps (r : MediaRatio) : Z :=
  Float32.to_int
    (Float32.div (Float32.of_int (Numerator r)) (Float32.of_int (Denominator r))).

(** ** Format selection (the loop of [VideoCaptureWinRT::StartCapture]) *)

Record selection : Set := mkSelection {
  videoEncodingProperties : option VideoEncodingProperties;
  minWidthDiff : Z;
  minHeightDiff : Z;
  minFpsDiff : Z
}.

Definition selection_init : selection :=
  mkSelection None Int32.INT_MAX Int32.INT_MAX Int32.INT_MAX.

(** The test that keeps a format in the loop: [_wcsicmp(...) == 0]. *)
Definition subtype_matches (subtype : string) (prop : VideoEncodingProperties) : bool :=
  _wcsicmp (Subtype prop) subtype =? 0.

Definition widthDiff (capability : VideoCaptureCapability) (prop : VideoEncodingProperties) : Z :=
  Int32.abs_diff (Width prop) (width capability).

Definition heightDiff (capability : VideoCaptureCapability) (prop : VideoEncodingProperties) : Z :=
  Int32.abs_diff (Height prop) (height capability).

Definition propFps (prop : VideoEncodingProperties) : Z := frame_rate_fps (FrameRate prop).

Definition fpsDiff (capability : VideoCaptureCapability) (prop : VideoEncodingProperties) : Z :=
  Int32.abs_diff (propFps prop) (maxFPS capability).

(** One iteration of the loop. *)
Definition select_step (subtype : string) (capability : VideoCaptureCapability)
    (st : selection) (prop : VideoEncodingProperties) : selection :=
  if negb (subtype_matches subtype prop) then st
  else
    let wd := widthDiff capability prop in
    let hd := heightDiff capability prop in
    let fd := fpsDiff capability prop in
    if wd <? minWidthDiff st then mkSelection (Some prop) wd hd fd
    else if wd =? minWidthDiff st then
      if hd <? minHeightDiff st then mkSelection (Some prop) (minWidthDiff st) hd fd
      else if hd =? minHeightDiff st then
        if fd <? minFpsDiff st then
          mkSelection (Some prop) (minWidthDiff st) (minHeightDiff st) fd
        else st
      else st
    else st.

Definition select_loop (subtype : string) (capability : VideoCaptureCapability)
    (streamProperties : list VideoEncodingProperties) (st : selection) : selection :=
  fold_left (select_step subtype capability) streamProperties st.

(** The format [StartCapture] hands to the capture device. *)
Definition best_match (subtype : string) (capability : VideoCaptureCapability)
    (streamProperties : list VideoEncodingProperties) : option VideoEncodingProperties :=
  videoEncodingProperties (select_loop subtype capability streamProperties selection_init).

(** ** The platform as an oracle, and the calls made on it *)

(** How a call of an asynchronous platform method ends: the operation it
    returns completes, or completes with an error (the task built on it is
    faulted), or the call itself throws before any operation exists.

    A faulted task and its continuations, in the task library (PPL): a
    continuation that takes the value of the task does not run, and the
    error passes on to the task that [then] returns; a continuation that
    takes the task itself runs; [wait] and [get] throw the error.  An error
    that no [wait] or [get] ever asks for is unobserved, and the run time
    ends the process when the task that holds it is destroyed. *)
Inductive completion : Set := Completed | Faulted | Threw.

(** A device of the enumeration; its id and its name are given by their
    UTF-8 text. *)
Record DeviceInformation : Set := mkDeviceInformation {
  Id : string;
  Name : string
}.

(** What a call leaves in a caller's buffer. *)
Inductive buffer : Set :=
| Untouched
| Holds (s : string)   (* the characters of [s] and the terminating zero *)
| Unspecified.         (* a conversion that failed for lack of room *)

(** [WideCharToMultiByte(CP_UTF8, 0, src, -1, dst, cbMultiByte, NULL, NULL)],
    with [src] given by its UTF-8 text.  With [cbMultiByte] zero the
    function only measures; with a null or negative destination it fails;
    otherwise it converts when the text and its terminating zero fit and
    fails when they do not.  It returns the number of bytes, zero on
    failure. *)
Definition WideCharToMultiByte (src : string) (dst : bool) (cbMultiByte : Z) : Z * buffer :=
  let required := strlen src + 1 in
  if cbMultiByte =? 0 then (required, Untouched)
  else if negb dst || (cbMultiByte <? 0) then (0, Untouched)
  else if required <=? cbMultiByte then (required, Holds src)
  else (0, Unspecified).

(** [Windows::Media::Capture::MediaCapture], named by the device it was
    created for. *)
Record MediaCapture : Set := mkMediaCapture { VideoDeviceId : option string }.

Inductive VideoCaptureMediaSinkProxyWinRT : Set := SinkProxy.

Record MediaEncodingProfile : Set := mkProfile { Video : VideoEncodingProperties }.

(** [IncomingFrameCallback*]: the module the frames go to, named by its id. *)
Inductive IncomingFrameCallback : Set := FrameCallback (id : Z).

Record Native : Type := mkNative {
  (* [findTask.get()]: the devices found, or [None] when it throws *)
  FindAllAsync_result : option (list DeviceInformation);
  (* [MediaCaptureDevicesWinRT::GetMediaCapture]; [None] when it throws *)
  GetMediaCapture_result : option string -> option MediaCapture;
  (* [media_capture_->Failed += ...]; [false] when it throws *)
  Failed_add_result : bool;
  GetAvailableMediaStreamProperties_result : list VideoEncodingProperties;
  InitializeAsync_result : completion;
  SetMediaStreamPropertiesAsync_result : option VideoEncodingProperties -> completion;
  StartRecordToCustomSinkAsync_result : completion;
  StopRecordAsync_result : completion;
  (* what a [WideCharToMultiByte] that fails for lack of room leaves in the
     256-byte buffer of [Init], as [strncmp] then reads it *)
  WideCharToMultiByte_failed : string -> string
}.

(** [currentDeviceUniqueIdUTF8] after [currentDeviceUniqueIdUTF8[0] = 0] and
    the conversion of the id into its 256 bytes, whose result is not looked
    at. *)
Definition currentDeviceUniqueIdUTF8 (failed : string -> string) (devInfo : DeviceInformation)
    : string :=
  match snd (WideCharToMultiByte (Id devInfo) true 256) with
  | Holds converted => converted
  | Untouched => EmptyString
  | Unspecified => failed (Id devInfo)
  end.

Inductive event : Type :=
| EvTrace (message : string) (args : list Z)
| EvFindAllAsync
| EvGetMediaCapture (deviceId : option string)
| EvFailed_add
| EvFailed_remove
| EvGetAvailableMediaStreamProperties
| EvSink_new
| EvMediaSampleEvent_add
| EvMediaSampleEvent_remove
| EvSink_delete
| EvInitializeAsync (video : VideoEncodingProperties)
| EvSetMediaStreamPropertiesAsync (properties : option VideoEncodingProperties)
| EvStartRecordToCustomSinkAsync (profile : MediaEncodingProfile)
| EvStopRecordAsync
| EvOnIncomingFrame (videoFrame : list byte) (videoFrameLength : Z)
    (frameInfo : VideoCaptureCapability)
| EvUnlock
| EvIncomingFrame (videoFrame : list byte) (videoFrameLength : Z)
    (frameInfo : VideoCaptureCapability).

(** ** Operations: state, exceptions and the record of platform calls *)

(** Why a call does not come back. *)
Inductive abort : Set :=
| NullDereference    (* [nullptr] is dereferenced *)
| UnobservedError.   (* a task that holds an unobserved error is destroyed *)

Inductive outcome (A : Type) : Type :=
| Returned (a : A)       (* the call returns [a] *)
| Raised                 (* a [Platform::Exception] leaves the call *)
| Aborted (why : abort). (* the call does not come back *)

Arguments Returned {A} a.
Arguments Raised {A}.
Arguments Aborted {A} why.

Definition M (S A : Type) : Type := S -> outcome A * S * list event.

Definition ret {S A} (a : A) : M S A := fun s => (Returned a, s, []).

Definition bind {S A B} (m : M S A) (k : A -> M S B) : M S B :=
  fun s =>
    match m s with
    | (Returned a, s1, t1) => let '(r, s2, t2) := k a s1 in (r, s2, t1 ++ t2)
    | (Raised, s1, t1) => (Raised, s1, t1)
    | (Aborted why, s1, t1) => (Aborted why, s1, t1)
    end.

Definition throw {S A} : M S A := fun s => (Raised, s, []).
Definition null_deref {S A} : M S A := fun s => (Aborted NullDereference, s, []).
Definition unobserved_error {S A} : M S A := fun s => (Aborted UnobservedError, s, []).
Definition emit {S} (e : event) : M S unit := fun s => (Returned tt, s, [e]).
Definition get {S} : M S S := fun s => (Returned s, s, []).
Definition modify {S} (f : S -> S) : M S unit := fun s => (Returned tt, f s, []).

(** [try { m } catch (Platform::Exception^) { h }].  The state changes made
    before the exception stay. *)
Definition try_catch {S A} (m : M S A) (h : M S A) : M S A :=
  fun s =>
    match m s with
    | (Raised, s1, t1) => let '(r, s2, t2) := h s1 in (r, s2, t1 ++ t2)
    | other => other
    end.

Definition when {S} (b : bool) (m : M S unit) : M S unit := if b then m else ret tt.

Declare Scope op_scope.
Delimit Scope op_scope with op.
Notation "x <- m ;; k" := (bind m (fun x => k))
  (at level 61, m at next level, right associativity) : op_scope.
Notation "m ;; k" := (bind m (fun _ => k))
  (at level 61, right associativity) : op_scope.
Open Scope op_scope.

Definition is_some {A} (o : option A) : bool :=
  match o with Some _ => true | None => false end.

(** ** [CaptureDevice] *)

Module CaptureDevice.

Record state : Set := mkState {
  media_capture_ : option MediaCapture;
  media_sink_ : option VideoCaptureMediaSinkProxyWinRT;
  incoming_frame_callback_ : option IncomingFrameCallback;
  capture_started_ : bool;
  frame_width_ : Z;
  frame_height_ : Z;
  max_fps_ : Z;
  raw_type_ : RawVideoType
}.

Definition set_media_capture (v : option MediaCapture) (d : state) : state :=
  mkState v (media_sink_ d) (incoming_frame_callback_ d) (capture_started_ d)
    (frame_width_ d) (frame_height_ d) (max_fps_ d) (raw_type_ d).

Definition set_media_sink (v : option VideoCaptureMediaSinkProxyWinRT) (d : state) : state :=
  mkState (media_capture_ d) v (incoming_frame_callback_ d) (capture_started_ d)
    (frame_width_ d) (frame_height_ d) (max_fps_ d) (raw_type_ d).

Definition set_capture_started (v : bool) (d : state) : state :=
  mkState (media_capture_ d) (media_sink_ d) (incoming_frame_callback_ d) v
    (frame_width_ d) (frame_height_ d) (max_fps_ d) (raw_type_ d).

Definition set_format (w h f : Z) (r : RawVideoType) (d : state) : state :=
  mkState (media_capture_ d) (media_sink_ d) (incoming_frame_callback_ d)
    (capture_started_ d) w h f r.

(** The constructor. *)
Definition new (incoming_frame_callback : option IncomingFrameCallback) : state :=
  mkState None None incoming_frame_callback false 0 0 0 kVideoUnknown.

Definition CleanupSink : M state unit :=
  d <- get ;;
  match media_sink_ d with
  | Some _ =>
      emit EvMediaSampleEvent_remove ;;
      emit EvSink_delete ;;
      modify (set_media_sink None) ;;
      modify (set_capture_started false)
  | None => ret tt
  end.

Definition DoCleanup : M state unit :=
  d <- get ;;
  when (is_some (media_capture_ d)) (emit EvFailed_remove) ;;
  CleanupSink.

Definition Initialize (native : Native) (deviceId : option string) : M state unit :=
  try_catch
    (emit (EvGetMediaCapture deviceId) ;;
     match GetMediaCapture_result native deviceId with
     | None => throw
     | Some mediaCapture =>
         modify (set_media_capture (Some mediaCapture)) ;;
         emit EvFailed_add ;;
         if Failed_add_result native then ret tt else throw
     end)
    (DoCleanup ;; throw).

Definition Cleanup (native : Native) : M state unit :=
  d <- get ;;
  if negb (is_some (media_capture_ d)) && negb (is_some (media_sink_ d)) then ret tt
  else
    when (is_some (media_capture_ d)) (emit EvFailed_remove) ;;
    if is_some (media_capture_ d) && capture_started_ d then
      emit EvStopRecordAsync ;;
      match StopRecordAsync_result native with
      | Threw => throw
      | Completed => DoCleanup
      | Faulted =>
          (* the continuation takes the task and never asks for its result *)
          DoCleanup ;; unobserved_error
      end
    else DoCleanup.

(** The chain of [if (_wcsicmp(...) == 0) ... else if ...] that names the
    raw type of a subtype. *)
Definition raw_type_of_subtype (subtype : string) : RawVideoType :=
  if _wcsicmp subtype MediaEncodingSubtypes.Yv12 =? 0 then kVideoYV12
  else if _wcsicmp subtype MediaEncodingSubtypes.Yuy2 =? 0 then kVideoYUY2
  else if _wcsicmp subtype MediaEncodingSubtypes.Iyuv =? 0 then kVideoIYUV
  else if _wcsicmp subtype MediaEncodingSubtypes.Rgb24 =? 0 then kVideoRGB24
  else if _wcsicmp subtype MediaEncodingSubtypes.Rgb32 =? 0 then kVideoARGB
  else if _wcsicmp subtype MediaEncodingSubtypes.Mjpg =? 0 then kVideoMJPEG
  else if _wcsicmp subtype MediaEncodingSubtypes.Nv12 =? 0 then kVideoNV12
  else kVideoUnknown.

(** The three chained steps of [StartCapture], after the sink exists.
    The continuation of the sink's [InitializeAsync] takes its value, so
    it runs only when that step completed.  The continuation of
    [SetMediaStreamPropertiesAsync] takes the task and never asks for its
    result.  The continuation of [StartRecordToCustomSinkAsync] takes the
    task and asks for its result inside [try].  The [wait] at the end
    throws the error the chain ends with. *)
Definition start_chain (native : Native) (mediaEncodingProfile : MediaEncodingProfile)
    (videoEncodingProperties : option VideoEncodingProperties) : M state unit :=
  emit (EvInitializeAsync (Video mediaEncodingProfile)) ;;
  match InitializeAsync_result native with
  | Threw | Faulted => throw
  | Completed =>
      d <- get ;;
      match media_capture_ d with
      | None => null_deref
      | Some _ =>
          emit (EvSetMediaStreamPropertiesAsync videoEncodingProperties) ;;
          match SetMediaStreamPropertiesAsync_result native videoEncodingProperties with
          | Threw => throw
          | Faulted =>
              (* the continuation runs and requests the recording; the error
                 of this step stays unobserved *)
              emit (EvStartRecordToCustomSinkAsync mediaEncodingProfile) ;;
              unobserved_error
          | Completed =>
              emit (EvStartRecordToCustomSinkAsync mediaEncodingProfile) ;;
              match StartRecordToCustomSinkAsync_result native with
              | Threw => throw
              | Faulted => CleanupSink ;; throw
              | Completed => modify (set_capture_started true)
              end
          end
      end
  end.

Definition StartCapture (native : Native) (mediaEncodingProfile : MediaEncodingProfile)
    (videoEncodingProperties : option VideoEncodingProperties) : M state unit :=
  d <- get ;;
  (* We cannot start recording twice. *)
  if is_some (media_sink_ d) && capture_started_ d then throw
  else
    (* Release sink if there is one already. *)
    CleanupSink ;;
    modify (set_format
              (Int32.to_int32 (Width (Video mediaEncodingProfile)))
              (Int32.to_int32 (Height (Video mediaEncodingProfile)))
              (frame_rate_fps (FrameRate (Video mediaEncodingProfile)))
              (raw_type_of_subtype (Subtype (Video mediaEncodingProfile)))) ;;
    (* Create new sink *)
    emit EvSink_new ;;
    modify (set_media_sink (Some SinkProxy)) ;;
    emit EvMediaSampleEvent_add ;;
    start_chain native mediaEncodingProfile videoEncodingProperties.

Definition StopCapture (native : Native) : M state unit :=
  d <- get ;;
  if capture_started_ d then
    match media_capture_ d with
    | None => null_deref
    | Some _ =>
        emit EvStopRecordAsync ;;
        match StopRecordAsync_result native with
        | Completed => CleanupSink   (* the continuation takes no task: it runs on success only *)
        | Faulted | Threw => throw
        end
    end
  else ret tt.

Definition CaptureStarted : M state bool :=
  d <- get ;; ret (capture_started_ d).

(** What [OnMediaSample] reads from its argument. *)
Record MediaSample : Set := mkSample {
  videoFrame : list byte;      (* the locked buffer *)
  cbCurrentLength : Z;
  hnsSampleTime : Z;           (* [LONGLONG], in units of 100 ns *)
  lock_hr : Z                  (* the [HRESULT] of [Lock] *)
}.

Definition SUCCEEDED (hr : Z) : bool := 0 <=? hr.

(** [hnsSampleTime / 10000] on [LONGLONG]: the quotient truncated toward zero. *)
Definition captureTime (sample : MediaSample) : Z := Z.quot (hnsSampleTime sample) 10000.

Definition frameInfo (d : state) : VideoCaptureCapability :=
  mkCapability (frame_width_ d) (frame_height_ d) (max_fps_ d) (raw_type_ d).

Definition OnMediaSample (sample : MediaSample) : M state unit :=
  d <- get ;;
  match incoming_frame_callback_ d with
  | Some _ =>
      let videoFrameLength := cbCurrentLength sample in
      when (SUCCEEDED (lock_hr sample))
        (emit (EvTrace "Video Capture - OnMediaSample - video frame length: %d, capture time: %lld"
                 [videoFrameLength; captureTime sample]) ;;
         emit (EvOnIncomingFrame (videoFrame sample) videoFrameLength (frameInfo d)) ;;
         emit EvUnlock)
  | None => ret tt
  end.

End CaptureDevice.

(** ** [VideoCaptureWinRT] *)

Module VideoCaptureWinRT.

Record state : Set := mkState {
  _id : Z;
  device_id_ : option string;
  device_ : option CaptureDevice.state
}.

Definition set_device_id (v : option string) (s : state) : state :=
  mkState (_id s) v (device_ s).

Definition set_device (v : option CaptureDevice.state) (s : state) : state :=
  mkState (_id s) (device_id_ s) v.

(** The constructor. *)
Definition new (id : Z) : state := mkState id None None.

(** [device_->op(...)]: the operation runs on the object [device_] refers to. *)
Definition on_device {A} (op : M CaptureDevice.state A) : M state A :=
  fun s =>
    match device_ s with
    | None => (Aborted NullDereference, s, [])
    | Some d => let '(r, d', t) := op d in (r, set_device (Some d') s, t)
    end.

(** The platform calls another object has made. *)
Definition emit_all {S} (t : list event) : M S unit := fun s => (Returned tt, s, t).

(** The [size_t] a length becomes as the third argument of [strncmp]. *)
Definition to_size_t (z : Z) : nat := Z.to_nat (Int32.to_uint32 z).

Section Init.

(** The constant is declared outside the sources at hand. *)
Variable kVideoCaptureUniqueNameLength : Z.

Definition Init (native : Native) (id : Z) (device_unique_id : string) : M state Z :=
  let device_unique_id_length := Int32.to_int32 (strlen device_unique_id) in
  if device_unique_id_length >? kVideoCaptureUniqueNameLength then
    emit (EvTrace "Device name too long" []) ;;
    ret (-1)
  else
    emit (EvTrace "Init called for device %s" []) ;;
    modify (set_device_id None) ;;
    emit EvFindAllAsync ;;
    match FindAllAsync_result native with
    | Some devInfoCollection =>
        when (Nat.eqb (List.length devInfoCollection) 0)
          (emit (EvTrace "No video capture device found" [])) ;;
        match
          find (fun devInfo =>
                  strncmp (currentDeviceUniqueIdUTF8 (WideCharToMultiByte_failed native) devInfo)
                    device_unique_id (to_size_t device_unique_id_length) =? 0)
               devInfoCollection
        with
        | Some devInfo => modify (set_device_id (Some (Id devInfo)))
        | None => ret tt
        end
    | None => ret tt   (* catch (Platform::Exception^ e) { } *)
    end ;;
    this <- get ;;
    let device := CaptureDevice.new (Some (FrameCallback (_id this))) in
    match CaptureDevice.Initialize native (device_id_ this) device with
    | (Returned _, device', t) =>
        emit_all t ;;
        modify (set_device (Some device')) ;;
        ret 0
    | (Raised, _, t) =>
        emit_all t ;;
        match device_ this with
        | Some _ =>
            on_device (CaptureDevice.Cleanup native) ;;
            modify (set_device_id None) ;;
            modify (set_device None) ;;
            ret (-1)
        | None => ret 0
        end
    | (Aborted why, _, t) => emit_all t ;; (fun s => (Aborted why, s, []))
    end.

End Init.

(** The [switch] of [StartCapture]; [None] is its [default]. *)
Definition subtype_of_rawType (rawType : RawVideoType) : option string :=
  match rawType with
  | kVideoYV12 => Some MediaEncodingSubtypes.Yv12
  | kVideoYUY2 => Some MediaEncodingSubtypes.Yuy2
  | kVideoI420 | kVideoIYUV => Some MediaEncodingSubtypes.Iyuv
  | kVideoRGB24 => Some MediaEncodingSubtypes.Rgb24
  | kVideoARGB => Some MediaEncodingSubtypes.Rgb24
  | kVideoMJPEG => Some MediaEncodingSubtypes.Mjpg
  | kVideoNV12 => Some MediaEncodingSubtypes.Nv12
  | kVideoUnknown => None
  end.

(** The profile [StartCapture] builds: [CreateUncompressed(subtype, width,
    height)], then the frame rate [maxFPS / 1]. *)
Definition encoding_profile (subtype : string) (capability : VideoCaptureCapability)
    : MediaEncodingProfile :=
  mkProfile
    (mkProps subtype
       (Int32.to_uint32 (width capability))
       (Int32.to_uint32 (height capability))
       (mkRatio (Int32.to_uint32 (maxFPS capability)) 1)).

(** The lookup of the capture object and of its formats is made outside
    [try]: when [GetMediaCapture] throws, the exception leaves
    [StartCapture].  The oracle gives the formats of the capture object. *)
Definition StartCapture (native : Native) (capability : VideoCaptureCapability) : M state Z :=
  match subtype_of_rawType (rawType capability) with
  | None =>
      emit (EvTrace "The specified raw video format is not supported on this plaform." []) ;;
      ret (-1)
  | Some subtype =>
      let mediaEncodingProfile := encoding_profile subtype capability in
      this <- get ;;
      emit (EvGetMediaCapture (device_id_ this)) ;;
      match GetMediaCapture_result native (device_id_ this) with
      | None => throw
      | Some mediaCapture =>
          emit EvGetAvailableMediaStreamProperties ;;
          let streamProperties := GetAvailableMediaStreamProperties_result native in
          let videoEncodingProperties := best_match subtype capability streamProperties in
          try_catch
            (on_device
               (CaptureDevice.StartCapture native mediaEncodingProfile
                  videoEncodingProperties) ;;
             ret 0)
            (ret (-1))
      end
  end.

Definition StopCapture (native : Native) : M state Z :=
  on_device (CaptureDevice.StopCapture native) ;;
  ret 0.

Definition CaptureStarted : M state bool :=
  on_device CaptureDevice.CaptureStarted.

(** The frame callback: the frame goes on to [IncomingFrame] of the base
    class. *)
Definition OnIncomingFrame (videoFrame : list byte) (videoFrameLength : Z)
    (frameInfo : VideoCaptureCapability) : M state unit :=
  emit (EvIncomingFrame videoFrame videoFrameLength frameInfo).

End VideoCaptureWinRT.

(** * Notions the properties are stated with *)

Import CaptureDevice.

(** The three parts of what an operation yields. *)
Definition result_of {S A} (r : outcome A * S * list event) : outcome A := fst (fst r).
Definition state_after {S A} (r : outcome A * S * list event) : S := snd (fst r).
Definition calls_of {S A} (r : outcome A * S * list event) : list event := snd r.

(** ** Format selection *)

(** The distance of the specification: the triple of absolute differences
    of width, height and frame rate, on the integers. *)
Definition delta (capability : VideoCaptureCapability) (prop : VideoEncodingProperties)
    : Z * Z * Z :=
  (Z.abs (Width prop - width capability),
   Z.abs (Height prop - height capability),
   Z.abs (propFps prop - maxFPS capability)).

(** Lexicographic order on triples: width first, then height, then rate. *)
Definition lex_lt (a b : Z * Z * Z) : Prop :=
  match a, b with
  | (a1, a2, a3), (b1, b2, b3) =>
      a1 < b1 \/ (a1 = b1 /\ (a2 < b2 \/ (a2 = b2 /\ a3 < b3)))
  end.

Definition lex_le (a b : Z * Z * Z) : Prop := lex_lt a b \/ a = b.

(** [chosen] is what the specification asks of the matcher on [offered]:
    nothing when no format has the subtype, and otherwise the first of the
    formats of that subtype whose distance is lexicographically least. *)
Definition first_lex_min (subtype : string) (capability : VideoCaptureCapability)
    (offered : list VideoEncodingProperties) (chosen : option VideoEncodingProperties) : Prop :=
  match chosen with
  | None => forall prop, In prop offered -> subtype_matches subtype prop = false
  | Some f =>
      exists i : nat,
        nth_error offered i = Some f /\
        subtype_matches subtype f = true /\
        forall (j : nat) (g : VideoEncodingProperties),
          nth_error offered j = Some g ->
          subtype_matches subtype g = true ->
          lex_le (delta capability f) (delta capability g) /\
          ((j < i)%nat -> lex_lt (delta capability f) (delta capability g))
  end.

(** The three differences of a format are within [int], so that the 32-bit
    subtractions do not wrap, and are not all three [INT_MAX], the initial
    value of the running minima. *)
Definition within_int (capability : VideoCaptureCapability) (prop : VideoEncodingProperties)
    : Prop :=
  Z.abs (Width prop - width capability) <= Int32.INT_MAX /\
  Z.abs (Height prop - height capability) <= Int32.INT_MAX /\
  Z.abs (propFps prop - maxFPS capability) <= Int32.INT_MAX /\
  delta capability prop <> (Int32.INT_MAX, Int32.INT_MAX, Int32.INT_MAX).

(** What the loop has established after the formats [seen]. *)
Definition selection_inv (subtype : string) (capability : VideoCaptureCapability)
    (seen : list VideoEncodingProperties) (st : selection) : Prop :=
  match videoEncodingProperties st with
  | None =>
      (forall prop, In prop seen -> subtype_matches subtype prop = false) /\
      minWidthDiff st = Int32.INT_MAX /\
      minHeightDiff st = Int32.INT_MAX /\
      minFpsDiff st = Int32.INT_MAX
  | Some f =>
      (minWidthDiff st, minHeightDiff st, minFpsDiff st) = delta capability f /\
      first_lex_min subtype capability seen (Some f)
  end.

(** ** The capture device *)

(** The state invariant: a started device has a sink. *)
Definition started_has_sink (d : CaptureDevice.state) : Prop :=
  capture_started_ d = true -> media_sink_ d <> None.

(** The operations of the capture device, with their arguments. *)
Inductive operation : Type :=
| OpInitialize (native : Native) (deviceId : option string)
| OpCleanupSink
| OpDoCleanup
| OpCleanup (native : Native)
| OpStartCapture (native : Native) (mediaEncodingProfile : MediaEncodingProfile)
    (videoEncodingProperties : option VideoEncodingProperties)
| OpStopCapture (native : Native)
| OpOnMediaSample (sample : MediaSample).

Definition run (o : operation) : M CaptureDevice.state unit :=
  match o with
  | OpInitialize native deviceId => Initialize native deviceId
  | OpCleanupSink => CleanupSink
  | OpDoCleanup => DoCleanup
  | OpCleanup native => Cleanup native
  | OpStartCapture native profile properties => StartCapture native profile properties
  | OpStopCapture native => StopCapture native
  | OpOnMediaSample sample => OnMediaSample sample
  end.

(** What [VideoCaptureWinRT::StartCapture] and [StopCapture] make of the
    way the device's operation ends. *)
Definition StartCapture_result (r : outcome unit) : outcome Z :=
  match r with
  | Returned _ => Returned 0
  | Raised => Returned (-1)      (* catch (Platform::Exception^ e) *)
  | Aborted why => Aborted why
  end.

Definition StopCapture_result (r : outcome unit) : outcome Z :=
  match r with
  | Returned _ => Returned 0
  | Raised => Raised
  | Aborted why => Aborted why
  end.


(** The frames that an operation forwards to the frame callback. *)
Definition forwarded_frames (t : list event) : list event :=
  filter (fun e => match e with EvOnIncomingFrame _ _ _ => true | _ => false end) t.

(** The string of [n] characters [c]. *)
Fixpoint replicate (n : nat) (c : ascii) : string :=
  match n with
  | O => EmptyString
  | S n' => String c (replicate n' c)
  end.

(** ** Platforms, sessions and requests used as examples *)

(** A platform on which every call succeeds and the camera offers four
    formats. *)
Definition native_ok : Native :=
  mkNative
    (Some [mkDeviceInformation "camA" "Camera A"; mkDeviceInformation "camB" "Camera B"])
    (fun deviceId => Some (mkMediaCapture deviceId))
    true
    [mkProps "YUY2" 1280 720 (mkRatio 30 1);
     mkProps "NV12" 640 480 (mkRatio 30 1);
     mkProps "YUY2" 640 480 (mkRatio 30 1);
     mkProps "yuy2" 640 480 (mkRatio 30 1)]
    Completed (fun _ => Completed) Completed Completed (fun _ => EmptyString).

(** A platform whose camera offers NV12 only, and which lets a null format
    pass when asked to apply it. *)
Definition native_nv12_only : Native :=
  mkNative
    (Some [mkDeviceInformation "camA" "Camera A"; mkDeviceInformation "camB" "Camera B"])
    (fun deviceId => Some (mkMediaCapture deviceId))
    true
    [mkProps "NV12" 640 480 (mkRatio 30 1)]
    Completed (fun _ => Completed) Completed Completed (fun _ => EmptyString).

(** A platform whose camera offers an RGB32 and an RGB24 format. *)
Definition native_rgb : Native :=
  mkNative (Some [mkDeviceInformation "camB" "Camera B"])
    (fun deviceId => Some (mkMediaCapture deviceId)) true
    [mkProps "RGB32" 640 480 (mkRatio 30 1); mkProps "RGB24" 1280 720 (mkRatio 30 1)]
    Completed (fun _ => Completed) Completed Completed (fun _ => EmptyString).

(** A platform on which no capture object can be obtained. *)
Definition native_no_capture : Native :=
  mkNative
    (Some [mkDeviceInformation "camA" "Camera A"; mkDeviceInformation "camB" "Camera B"])
    (fun _ => None)
    true [] Completed (fun _ => Completed) Completed Completed (fun _ => EmptyString).

(** A platform on which the enumeration of the devices fails. *)
Definition native_no_enumeration : Native :=
  mkNative None (fun deviceId => Some (mkMediaCapture deviceId)) true []
    Completed (fun _ => Completed) Completed Completed (fun _ => EmptyString).

(** Platforms on which one step of starting or stopping ends with an
    error. *)
Definition native_sink_init_faults : Native :=
  mkNative (Some []) (fun deviceId => Some (mkMediaCapture deviceId)) true []
    Faulted (fun _ => Completed) Completed Completed (fun _ => EmptyString).

Definition native_set_properties_faults : Native :=
  mkNative (Some []) (fun deviceId => Some (mkMediaCapture deviceId)) true []
    Completed (fun _ => Faulted) Completed Completed (fun _ => EmptyString).

Definition native_start_record_faults : Native :=
  mkNative (Some []) (fun deviceId => Some (mkMediaCapture deviceId)) true []
    Completed (fun _ => Completed) Faulted Completed (fun _ => EmptyString).

Definition native_stop_faults : Native :=
  mkNative (Some []) (fun deviceId => Some (mkMediaCapture deviceId)) true []
    Completed (fun _ => Completed) Completed Faulted (fun _ => EmptyString).

Definition capability_vga : VideoCaptureCapability := mkCapability 640 480 30 kVideoYUY2.
Definition capability_hd : VideoCaptureCapability := mkCapability 1280 720 30 kVideoYUY2.
Definition capability_argb : VideoCaptureCapability := mkCapability 640 480 30 kVideoARGB.

Definition profile_vga : MediaEncodingProfile :=
  mkProfile (mkProps "YUY2" 640 480 (mkRatio 30 1)).

Definition properties_vga : option VideoEncodingProperties :=
  Some (mkProps "YUY2" 640 480 (mkRatio 30 1)).

(** A capture device after a successful [Initialize], and after a
    successful [StartCapture] for 640x480 YUY2 at 30 fps. *)
Definition device_camB : CaptureDevice.state :=
  CaptureDevice.mkState (Some (mkMediaCapture (Some "camB"))) None
    (Some (FrameCallback 7)) false 0 0 0 kVideoUnknown.

Definition device_started : CaptureDevice.state :=
  CaptureDevice.mkState (Some (mkMediaCapture (Some "camB"))) (Some SinkProxy)
    (Some (FrameCallback 7)) true 640 480 30 kVideoYUY2.

(** The sessions that hold them. *)
Definition session_camB : VideoCaptureWinRT.state :=
  VideoCaptureWinRT.mkState 7 (Some "camB") (Some device_camB).

Definition session_started : VideoCaptureWinRT.state :=
  VideoCaptureWinRT.mkState 7 (Some "camB") (Some device_started).

Definition sample_1234560 : MediaSample := mkSample [x00; x01; x02]%byte 3 1234560 0.
Definition sample_0 : MediaSample := mkSample [x00; x01; x02]%byte 3 0 0.

(** * The rest of the module *)

(** ** The device information class *)

Module DeviceInfoWinRT.

(** What the platform answers to the device information class: the
    enumeration, and, for the device with a given id, the initialization
    of a new [MediaCapture] and the formats it then offers.  The messages
    this class writes to the trace are not recorded. *)
Record Platform : Type := mkPlatform {
  (* [findTask.get()]: the devices found, or [None] when it throws *)
  FindAllAsync_result : option (list DeviceInformation);
  (* [mediaCapture->InitializeAsync(settings)] *)
  InitializeAsync_result : string -> completion;
  GetAvailableMediaStreamProperties_result : string -> list VideoEncodingProperties;
  (* what a [WideCharToMultiByte] that fails for lack of room leaves in the
     256-byte buffer of [CreateCapabilityMap], as [strncmp] then reads it *)
  WideCharToMultiByte_failed : string -> string
}.

Record state : Set := mkState {
  _id : Z;
  _captureCapabilities : list VideoCaptureCapability
}.

(** The constructor, [Init] and [Create]: [Init] returns [0], so [Create]
    never deletes the object it has made. *)
Definition new (id : Z) : state := mkState id [].

Definition Init (this : state) : Z := 0.

Definition Create (id : Z) : option state :=
  let winrtInfo := new id in
  if negb (Init winrtInfo =? 0) then None else Some winrtInfo.

Definition DisplayCaptureSettingsDialogBox : Z := -1.

(** The pointers ([true]: not null) and lengths that [GetDeviceInfo] and
    [GetDeviceName] are given. *)
Record out_parameters : Set := mkOut {
  deviceNameUTF8 : bool;
  deviceNameLength : Z;
  deviceUniqueIdUTF8 : bool;
  deviceUniqueIdUTF8Length : Z;
  productUniqueIdUTF8 : bool;
  productUniqueIdUTF8Length : Z
}.

(** The buffers behind them, after the call. *)
Record out_buffers : Set := mkBuffers {
  deviceName : buffer;
  deviceUniqueId : buffer;
  productUniqueId : buffer
}.

Definition untouched : out_buffers := mkBuffers Untouched Untouched Untouched.

(** The body of the loop for the device whose index is [deviceNumber]. *)
Definition GetDeviceInfo_write (devInfo : DeviceInformation) (out : out_parameters)
    : outcome out_buffers :=
  let name := WideCharToMultiByte (Name devInfo) (deviceNameUTF8 out)
                (Int32.to_int32 (deviceNameLength out)) in
  let uid := WideCharToMultiByte (Id devInfo) (deviceUniqueIdUTF8 out)
               (Int32.to_int32 (deviceUniqueIdUTF8Length out)) in
  (* productUniqueIdUTF8[0] = 0; *)
  if productUniqueIdUTF8 out then Returned (mkBuffers (snd name) (snd uid) (Holds ""))
  else Aborted NullDereference.

(** [for (unsigned int i = 0; i < Size; i++) if (i == static_cast<int>(deviceNumber))]:
    [i] counts the devices before [devices]. *)
Fixpoint GetDeviceInfo_loop (devices : list DeviceInformation) (i : Z) (deviceNumber : Z)
    (out : out_parameters) (buffers : out_buffers) : outcome out_buffers :=
  match devices with
  | [] => Returned buffers
  | devInfo :: rest =>
      if i =? Int32.to_uint32 (Int32.to_int32 deviceNumber) then
        match GetDeviceInfo_write devInfo out with
        | Returned buffers' => GetDeviceInfo_loop rest (i + 1) deviceNumber out buffers'
        | other => other
        end
      else GetDeviceInfo_loop rest (i + 1) deviceNumber out buffers
  end.

(** [GetDeviceInfo]: the number of devices and the buffers. *)
Definition GetDeviceInfo (platform : Platform) (deviceNumber : Z) (out : out_parameters)
    : outcome (Z * out_buffers) :=
  match FindAllAsync_result platform with
  | None => Returned (0, untouched)       (* catch (Platform::Exception^ e) { } *)
  | Some devInfoCollection =>
      let deviceCount := Int32.to_int32 (Z.of_nat (List.length devInfoCollection)) in
      match GetDeviceInfo_loop devInfoCollection 0 deviceNumber out untouched with
      | Returned buffers => Returned (deviceCount, buffers)
      | Raised => Raised
      | Aborted why => Aborted why
      end
  end.

(** [GetDeviceInfo(255, 0, 0, 0, 0, 0, 0)], as [uint32_t]. *)
Definition NumberOfDevices (platform : Platform) : outcome Z :=
  match GetDeviceInfo platform 255 (mkOut false 0 false 0 false 0) with
  | Returned (deviceCount, _) => Returned (Int32.to_uint32 deviceCount)
  | Raised => Raised
  | Aborted why => Aborted why
  end.

Definition GetDeviceName (platform : Platform) (deviceNumber : Z) (out : out_parameters)
    : outcome (Z * out_buffers) :=
  match GetDeviceInfo platform deviceNumber out with
  | Returned (result, buffers) =>
      Returned (if result >? Int32.to_int32 deviceNumber then 0 else -1, buffers)
  | other => other
  end.

Section CreateCapabilityMap.

(** The constant, and the raw type that the default constructor of
    [VideoCaptureCapability] leaves, are declared outside the sources at
    hand. *)
Variable kVideoCaptureUniqueNameLength : Z.
Variable default_rawType : RawVideoType.

(** The capability pushed for one offered format: its width, its height,
    and the numerator of its frame rate. *)
Definition capability_of (prop : VideoEncodingProperties) : VideoCaptureCapability :=
  mkCapability (Int32.to_int32 (Width prop)) (Int32.to_int32 (Height prop))
    (Int32.to_int32 (Numerator (FrameRate prop))) default_rawType.

Definition CreateCapabilityMap (platform : Platform) (deviceUniqueIdUTF8 : string)
    (this : state) : Z * state :=
  (* _captureCapabilities.clear(); *)
  let this := mkState (_id this) [] in
  let deviceUniqueIdUTF8Length := Int32.to_int32 (strlen deviceUniqueIdUTF8) in
  if deviceUniqueIdUTF8Length >? kVideoCaptureUniqueNameLength then (-1, this)
  else
    let capabilities :=
      match FindAllAsync_result platform with
      | None => []
      | Some devInfoCollection =>
          match
            find (fun devInfo =>
                    strncmp
                      (currentDeviceUniqueIdUTF8 (WideCharToMultiByte_failed platform) devInfo)
                      deviceUniqueIdUTF8
                      (VideoCaptureWinRT.to_size_t deviceUniqueIdUTF8Length) =? 0)
                 devInfoCollection
          with
          | None => []
          | Some chosenDevInfo =>
              match InitializeAsync_result platform (Id chosenDevInfo) with
              | Completed =>
                  map capability_of
                    (GetAvailableMediaStreamProperties_result platform (Id chosenDevInfo))
              | Faulted | Threw => []      (* catch (Platform::Exception^ e) { } *)
              end
          end
      end in
    (0, mkState (_id this) capabilities).

End CreateCapabilityMap.

End DeviceInfoWinRT.

(** [VideoCaptureWinRT::CaptureSettings]. *)
Definition CaptureSettings (settings : VideoCaptureCapability) : Z := -1.

(** ** Notions for the further properties *)

(** The three 32-bit differences of the loop, and their initial value. *)
Definition diffs (capability : VideoCaptureCapability) (prop : VideoEncodingProperties)
    : Z * Z * Z :=
  (widthDiff capability prop, heightDiff capability prop, fpsDiff capability prop).

Definition initial_minima : Z * Z * Z := (Int32.INT_MAX, Int32.INT_MAX, Int32.INT_MAX).

(** [f] is the first of the formats of [offered] with the subtype whose
    [key] is lexicographically least. *)
Definition first_least (key : VideoEncodingProperties -> Z * Z * Z) (subtype : string)
    (offered : list VideoEncodingProperties) (f : VideoEncodingProperties) : Prop :=
  exists i : nat,
    nth_error offered i = Some f /\
    subtype_matches subtype f = true /\
    forall (j : nat) (g : VideoEncodingProperties),
      nth_error offered j = Some g ->
      subtype_matches subtype g = true ->
      lex_le (key f) (key g) /\ ((j < i)%nat -> lex_lt (key f) (key g)).

(** What the loop has established after the formats [seen], in terms of
    its own 32-bit differences. *)
Definition selection_exact (subtype : string) (capability : VideoCaptureCapability)
    (seen : list VideoEncodingProperties) (st : selection) : Prop :=
  match videoEncodingProperties st with
  | None =>
      (forall prop, In prop seen -> subtype_matches subtype prop = true ->
                    diffs capability prop = initial_minima) /\
      (minWidthDiff st, minHeightDiff st, minFpsDiff st) = initial_minima
  | Some f =>
      (minWidthDiff st, minHeightDiff st, minFpsDiff st) = diffs capability f /\
      diffs capability f <> initial_minima /\
      first_least (diffs capability) subtype seen f
  end.

(** A C string: no character is zero. *)
Fixpoint is_c_string (s : string) : bool :=
  match s with
  | EmptyString => true
  | String c rest => negb (Ascii.eqb c Ascii.zero) && is_c_string rest
  end.

(** [p] is a prefix of [s]. *)
Fixpoint is_prefix (p s : string) {struct p} : bool :=
  match p with
  | EmptyString => true
  | String a p' =>
      match s with
      | EmptyString => false
      | String b s' => Ascii.eqb a b && is_prefix p' s'
      end
  end.

(** Every enumerated id fits, with its terminating zero, the 256 bytes it is
    converted into. *)
Definition ids_fit (devInfoCollection : option (list DeviceInformation)) : bool :=
  match devInfoCollection with
  | Some devices => forallb (fun devInfo => strlen (Id devInfo) <? 256) devices
  | None => true
  end.

(** The id of the first enumerated device that [device_unique_id] is a
    prefix of; null when there is none or the enumeration failed. *)
Definition resolve (devInfoCollection : option (list DeviceInformation))
    (device_unique_id : string) : option string :=
  match devInfoCollection with
  | Some devices =>
      option_map Id (find (fun devInfo => is_prefix device_unique_id (Id devInfo)) devices)
  | None => None
  end.

(** What [Init] does once the identifier has passed the check of its
    length and the enumeration has given [deviceId], in terms of
    [Initialize] on a new device and of [Cleanup] on the device held. *)
Definition Init_enumeration (native : Native) : list event :=
  EvTrace "Init called for device %s" [] :: EvFindAllAsync ::
  match FindAllAsync_result native with
  | Some [] => [EvTrace "No video capture device found" []]
  | _ => []
  end.

Definition Init_outcome (native : Native) (this : VideoCaptureWinRT.state)
    (deviceId : option string) : outcome Z * VideoCaptureWinRT.state * list event :=
  match
    CaptureDevice.Initialize native deviceId
      (CaptureDevice.new (Some (FrameCallback (VideoCaptureWinRT._id this))))
  with
  | (Returned _, device', t) =>
      (Returned 0, VideoCaptureWinRT.mkState (VideoCaptureWinRT._id this) deviceId (Some device'),
       Init_enumeration native ++ t)
  | (Raised, _, t) =>
      match VideoCaptureWinRT.device_ this with
      | Some old =>
          match CaptureDevice.Cleanup native old with
          | (Returned _, _, t') =>
              (Returned (-1), VideoCaptureWinRT.mkState (VideoCaptureWinRT._id this) None None,
               Init_enumeration native ++ t ++ t')
          | (Raised, old', t') =>
              (Raised,
               VideoCaptureWinRT.mkState (VideoCaptureWinRT._id this) deviceId (Some old'),
               Init_enumeration native ++ t ++ t')
          | (Aborted why, old', t') =>
              (Aborted why,
               VideoCaptureWinRT.mkState (VideoCaptureWinRT._id this) deviceId (Some old'),
               Init_enumeration native ++ t ++ t')
          end
      | None =>
          (Returned 0, VideoCaptureWinRT.mkState (VideoCaptureWinRT._id this) deviceId None,
           Init_enumeration native ++ t)
      end
  | (Aborted why, _, t) =>
      (Aborted why,
       VideoCaptureWinRT.mkState (VideoCaptureWinRT._id this) deviceId
         (VideoCaptureWinRT.device_ this),
       Init_enumeration native ++ t)
  end.



(** The number of calls of a kind in a record of calls. *)
Definition count_calls (kind : event -> bool) (t : list event) : Z :=
  Z.of_nat (List.length (filter kind t)).

Definition is_GetMediaCapture (e : event) : bool :=
  match e with EvGetMediaCapture _ => true | _ => false end.
Definition is_StopRecordAsync (e : event) : bool :=
  match e with EvStopRecordAsync => true | _ => false end.
Definition is_Failed_remove (e : event) : bool :=
  match e with EvFailed_remove => true | _ => false end.
Definition is_Sink_new (e : event) : bool :=
  match e with EvSink_new => true | _ => false end.
Definition is_Sink_delete (e : event) : bool :=
  match e with EvSink_delete => true | _ => false end.
Definition is_MediaSampleEvent_add (e : event) : bool :=
  match e with EvMediaSampleEvent_add => true | _ => false end.
Definition is_MediaSampleEvent_remove (e : event) : bool :=
  match e with EvMediaSampleEvent_remove => true | _ => false end.

(** The sinks a device holds: one or none. *)
Definition sinks (d : CaptureDevice.state) : Z := if is_some (media_sink_ d) then 1 else 0.

(** The operations of the facade, with their arguments. *)
Inductive session_operation : Type :=
| SessionInit (kVideoCaptureUniqueNameLength : Z) (native : Native) (id : Z)
    (device_unique_id : string)
| SessionStartCapture (native : Native) (capability : VideoCaptureCapability)
| SessionStopCapture (native : Native)
| SessionCaptureStarted.

Definition run_session (o : session_operation) : M VideoCaptureWinRT.state unit :=
  match o with
  | SessionInit k native id device_unique_id =>
      VideoCaptureWinRT.Init k native id device_unique_id ;; ret tt
  | SessionStartCapture native capability =>
      VideoCaptureWinRT.StartCapture native capability ;; ret tt
  | SessionStopCapture native => VideoCaptureWinRT.StopCapture native ;; ret tt
  | SessionCaptureStarted => VideoCaptureWinRT.CaptureStarted ;; ret tt
  end.

(** The invariant of a session: the device it holds, if any, is bound to a
    capture object, and has a sink when it is started. *)
Definition session_ok (this : VideoCaptureWinRT.state) : Prop :=
  forall d, VideoCaptureWinRT.device_ this = Some d ->
            media_capture_ d <> None /\ started_has_sink d.

(** ** Further examples *)

Definition platform_two_cameras : DeviceInfoWinRT.Platform :=
  DeviceInfoWinRT.mkPlatform
    (Some [mkDeviceInformation "camA" "Camera A"; mkDeviceInformation "camB" "Camera B"])
    (fun _ => Completed)
    (fun deviceId =>
       if String.eqb deviceId "camB"
       then [mkProps "YUY2" 640 480 (mkRatio 30 1); mkProps "NV12" 1280 720 (mkRatio 30000 1001)]
       else [])
    (fun _ => EmptyString).

Definition out_256 : DeviceInfoWinRT.out_parameters :=
  DeviceInfoWinRT.mkOut true 256 true 256 true 256.

(** * Properties *)

(** ** Tactics *)

Ltac unfold_monad :=
  unfold bind, ret, emit, get, modify, throw, null_deref, unobserved_error, try_catch, when,
    VideoCaptureWinRT.on_device, VideoCaptureWinRT.emit_all in *.

Ltac unfold_device :=
  unfold Initialize, Cleanup, DoCleanup, StartCapture, start_chain, StopCapture,
    OnMediaSample, CaptureStarted, CleanupSink in *.

(** Case analysis on everything an operation branches on, innermost first. *)
Ltac break_innermost :=
  match goal with
  | |- context [match ?x with _ => _ end] =>
      lazymatch x with
      | context [match _ with _ => _ end] => fail
      | _ => destruct x eqn:?
      end
  end.

Ltac break_match := repeat (break_innermost; cbn in * ).

(** Splits a membership in an explicit list of calls. *)
Ltac split_In :=
  repeat match goal with
         | H : _ \/ _ |- _ => destruct H
         | H : False |- _ => destruct H
         | H : In _ (_ :: _) |- _ => cbn [In] in H
         | H : In _ [] |- _ => destruct H
         | H : In _ (_ ++ _) |- _ => apply in_app_or in H
         end.

Arguments best_match : simpl never.
Arguments VideoCaptureWinRT.encoding_profile : simpl never.

(** ** Machine arithmetic *)

Lemma to_int32_to_uint32 (z : Z) : Int32.to_int32 (Int32.to_uint32 z) = Int32.to_int32 z.
Proof.
  unfold Int32.to_int32, Int32.to_uint32.
  Z.div_mod_to_equations. lia.
Qed.

Lemma to_int32_small (z : Z) :
  Int32.INT_MIN <= z <= Int32.INT_MAX -> Int32.to_int32 z = z.
Proof.
  unfold Int32.to_int32, Int32.INT_MIN, Int32.INT_MAX. intros H.
  Z.div_mod_to_equations. lia.
Qed.

(** Up to [INT_MAX] the 32-bit distance is the distance of the integers. *)
Lemma abs_diff_exact (a b : Z) :
  Z.abs (a - b) <= Int32.INT_MAX -> Int32.abs_diff a b = Z.abs (a - b).
Proof.
  intros H. unfold Int32.abs_diff. rewrite to_int32_to_uint32.
  rewrite to_int32_small by (unfold Int32.INT_MIN, Int32.INT_MAX in *; lia).
  unfold Int32.abs. destruct (Z.eqb_spec (a - b) Int32.INT_MIN) as [E|E]; [|reflexivity].
  unfold Int32.INT_MIN, Int32.INT_MAX in *. lia.
Qed.

Lemma strlen_replicate (z : Z) (c : ascii) :
  0 <= z -> strlen (replicate (Z.to_nat z) c) = z.
Proof.
  intros Hz. unfold strlen.
  assert (H : forall n, String.length (replicate n c) = n).
  { induction n as [|n IH]; cbn [replicate String.length]; congruence. }
  rewrite H. apply Z2Nat.id. exact Hz.
Qed.

(** ** Format selection *)

Section Selection.

Variable subtype : string.
Variable capability : VideoCaptureCapability.

Lemma selection_inv_init : selection_inv subtype capability [] selection_init.
Proof.
  unfold selection_inv; cbn. repeat split; intros prop [].
Qed.

Lemma diffs_exact (prop : VideoEncodingProperties) :
  within_int capability prop ->
  (widthDiff capability prop, heightDiff capability prop, fpsDiff capability prop)
  = delta capability prop.
Proof.
  intros (Hw & Hh & Hf & _). unfold widthDiff, heightDiff, fpsDiff, delta.
  rewrite !abs_diff_exact by lia. reflexivity.
Qed.

Lemma nth_error_snoc (l : list VideoEncodingProperties) (x g : VideoEncodingProperties)
    (j : nat) :
  nth_error (l ++ [x]) j = Some g ->
  nth_error l j = Some g \/ (j = List.length l /\ g = x).
Proof.
  intros H. destruct (Nat.lt_ge_cases j (List.length l)) as [Hlt|Hge].
  - left. rewrite nth_error_app1 in H by assumption. exact H.
  - right. rewrite nth_error_app2 in H by assumption.
    destruct (j - List.length l)%nat as [|k] eqn:E; cbn in H.
    + split; [lia | congruence].
    + destruct k; discriminate.
Qed.

(** One iteration keeps what the loop has established. *)
Lemma selection_inv_step (seen : list VideoEncodingProperties) (st : selection)
    (prop : VideoEncodingProperties) :
  (subtype_matches subtype prop = true -> within_int capability prop) ->
  selection_inv subtype capability seen st ->
  selection_inv subtype capability (seen ++ [prop]) (select_step subtype capability st prop).
Proof.
  intros Hrange Hinv. unfold select_step.
  destruct (subtype_matches subtype prop) eqn:Hm; cbn [negb].
  - (* a format of the requested subtype *)
    specialize (Hrange eq_refl).
    pose proof (diffs_exact prop Hrange) as Hd.
    pose proof Hrange as (Rw & Rh & Rf & Rne).
    assert (Hnew : nth_error (seen ++ [prop]) (List.length seen) = Some prop).
    { rewrite nth_error_app2 by lia. rewrite Nat.sub_diag. reflexivity. }
    unfold selection_inv, first_lex_min in Hinv.
    destruct (videoEncodingProperties st) as [f|] eqn:Hsel.
    + (* a format is already selected *)
      destruct Hinv as (Hmin & i & Hi & Hmf & Hbest).
      assert (Hi' : nth_error (seen ++ [prop]) i = Some f).
      { rewrite nth_error_app1; [exact Hi|]. apply nth_error_Some. congruence. }
      assert (Hilt : (i < List.length seen)%nat).
      { apply nth_error_Some. congruence. }
      unfold delta in Hmin, Hd. injection Hmin as Mw Mh Mf. injection Hd as Dw Dh Df.
      destruct (Z.ltb_spec (widthDiff capability prop) (minWidthDiff st)) as [L1|L1];
        [|destruct (Z.eqb_spec (widthDiff capability prop) (minWidthDiff st)) as [E1|E1];
          [destruct (Z.ltb_spec (heightDiff capability prop) (minHeightDiff st)) as [L2|L2];
            [|destruct (Z.eqb_spec (heightDiff capability prop) (minHeightDiff st)) as [E2|E2];
              [destruct (Z.ltb_spec (fpsDiff capability prop) (minFpsDiff st)) as [L3|L3]|]]|]].
      all: unfold selection_inv, first_lex_min;
        cbn [videoEncodingProperties minWidthDiff minHeightDiff minFpsDiff];
        try rewrite Hsel.
      all: split; [unfold delta; congruence|].
      (* the new format replaces the selection *)
      1,2,3: exists (List.length seen); split; [assumption|]; split; [assumption|];
        intros j g Hj Hg; destruct (nth_error_snoc _ _ _ _ Hj) as [Hold|[-> ->]];
        [ destruct (Hbest j g Hold Hg) as [Hle _];
          assert (Hlt : lex_lt (delta capability prop) (delta capability g))
            by (unfold lex_le, lex_lt, delta in *; destruct Hle as [Hle|Hle];
                [|injection Hle as ? ? ?]; lia);
          split; [left; exact Hlt | intros _; exact Hlt]
        | split; [right; reflexivity | lia] ].
      (* the selection stays *)
      all: exists i; split; [assumption|]; split; [assumption|];
        intros j g Hj Hg; destruct (nth_error_snoc _ _ _ _ Hj) as [Hold|[-> ->]];
        [ exact (Hbest j g Hold Hg)
        | split; [|lia];
          unfold lex_le, lex_lt, delta;
          destruct (Z.eq_dec (Z.abs (Width f - width capability))
                             (Z.abs (Width prop - width capability)));
          destruct (Z.eq_dec (Z.abs (Height f - height capability))
                             (Z.abs (Height prop - height capability)));
          destruct (Z.eq_dec (Z.abs (propFps f - maxFPS capability))
                             (Z.abs (propFps prop - maxFPS capability)));
          try (right; congruence); left; lia ].
    + (* nothing selected yet: the minima are at their initial value *)
      destruct Hinv as (Hnone & Mw & Mh & Mf).
      unfold delta in Hd, Rne. injection Hd as Dw Dh Df.
      assert (Hfirst : first_lex_min subtype capability (seen ++ [prop]) (Some prop)).
      { exists (List.length seen); split; [assumption|]; split; [assumption|].
        intros j g Hj Hg. destruct (nth_error_snoc _ _ _ _ Hj) as [Hold|[-> ->]].
        - apply nth_error_In in Hold. rewrite (Hnone g Hold) in Hg. discriminate.
        - split; [right; reflexivity | lia]. }
      destruct (Z.ltb_spec (widthDiff capability prop) (minWidthDiff st)) as [L1|L1];
        [|destruct (Z.eqb_spec (widthDiff capability prop) (minWidthDiff st)) as [E1|E1];
          [destruct (Z.ltb_spec (heightDiff capability prop) (minHeightDiff st)) as [L2|L2];
            [|destruct (Z.eqb_spec (heightDiff capability prop) (minHeightDiff st)) as [E2|E2];
              [destruct (Z.ltb_spec (fpsDiff capability prop) (minFpsDiff st)) as [L3|L3]|]]|]].
      (* the format is selected unless its three differences are [INT_MAX] *)
      1,2,3: unfold selection_inv;
        cbn [videoEncodingProperties minWidthDiff minHeightDiff minFpsDiff];
        split; [unfold delta; congruence | exact Hfirst].
      all: exfalso; try lia.
      apply Rne. f_equal; [f_equal|]; lia.
  - (* another subtype: [continue] *)
    unfold selection_inv, first_lex_min in *.
    destruct (videoEncodingProperties st) as [f|].
    + destruct Hinv as (Hmin & i & Hi & Hmf & Hbest). split; [assumption|].
      exists i. split; [|split; [assumption|]].
      * rewrite nth_error_app1; [exact Hi|]. apply nth_error_Some. congruence.
      * intros j g Hj Hg. destruct (nth_error_snoc _ _ _ _ Hj) as [Hold|[-> ->]];
          [exact (Hbest j g Hold Hg) | congruence].
    + destruct Hinv as (Hnone & Hrest). split; [|assumption].
      intros g Hg. apply in_app_or in Hg. destruct Hg as [Hg|[<-|[]]]; auto.
Qed.

Lemma selection_inv_loop (rest seen : list VideoEncodingProperties) (st : selection) :
  (forall prop, In prop rest -> subtype_matches subtype prop = true ->
                within_int capability prop) ->
  selection_inv subtype capability seen st ->
  selection_inv subtype capability (seen ++ rest) (select_loop subtype capability rest st).
Proof.
  revert seen st. induction rest as [|prop rest IH]; intros seen st Hrange Hinv.
  - rewrite app_nil_r. exact Hinv.
  - cbn [select_loop fold_left].
    replace (seen ++ prop :: rest) with ((seen ++ [prop]) ++ rest)
      by (rewrite <- app_assoc; reflexivity).
    apply IH.
    + intros g Hg. apply Hrange. right; exact Hg.
    + apply selection_inv_step; [|exact Hinv]. apply Hrange. left; reflexivity.
Qed.

Lemma best_match_first_lex_min (offered : list VideoEncodingProperties) :
  (forall prop, In prop offered -> subtype_matches subtype prop = true ->
                within_int capability prop) ->
  first_lex_min subtype capability offered (best_match subtype capability offered).
Proof.
  intros Hrange.
  pose proof (selection_inv_loop offered [] selection_init Hrange selection_inv_init) as H.
  cbn [app] in H. unfold selection_inv in H. unfold best_match.
  destruct (videoEncodingProperties (select_loop subtype capability offered selection_init)).
  - destruct H as (_ & H). exact H.
  - destruct H as (H & _). exact H.
Qed.

(** The selected format is one of the offered formats and has the subtype
    asked for, whatever the numbers are. *)
Lemma select_loop_matches (rest : list VideoEncodingProperties) (st : selection)
    (f : VideoEncodingProperties) :
  videoEncodingProperties (select_loop subtype capability rest st) = Some f ->
  videoEncodingProperties st = Some f \/ (In f rest /\ subtype_matches subtype f = true).
Proof.
  revert st. induction rest as [|prop rest IH]; intros st H.
  - left. exact H.
  - cbn [select_loop fold_left] in H. apply IH in H. destruct H as [H|[H1 H2]].
    + unfold select_step in H.
      destruct (subtype_matches subtype prop) eqn:Hm; cbn [negb] in H; [|left; exact H].
      repeat match type of H with
             | context [if ?c then _ else _] => destruct c
             end;
        cbn [videoEncodingProperties] in H;
        solve [ left; exact H
              | right; injection H as <-; split; [left; reflexivity | exact Hm] ].
    + right. split; [right; exact H1 | exact H2].
Qed.

Lemma best_match_matches (offered : list VideoEncodingProperties)
    (f : VideoEncodingProperties) :
  best_match subtype capability offered = Some f ->
  In f offered /\ subtype_matches subtype f = true.
Proof.
  intros H. apply select_loop_matches in H. destruct H as [H|H]; [discriminate H | exact H].
Qed.

Lemma select_loop_no_match (rest : list VideoEncodingProperties) (st : selection) :
  (forall prop, In prop rest -> subtype_matches subtype prop = false) ->
  select_loop subtype capability rest st = st.
Proof.
  revert st. induction rest as [|prop rest IH]; intros st H; [reflexivity|].
  cbn [select_loop fold_left]. unfold select_step at 2.
  rewrite (H prop (or_introl eq_refl)). cbn [negb].
  apply IH. intros g Hg. apply H. right. exact Hg.
Qed.

Lemma best_match_none (offered : list VideoEncodingProperties) :
  (forall prop, In prop offered -> subtype_matches subtype prop = false) ->
  best_match subtype capability offered = None.
Proof.
  intros H. unfold best_match. rewrite select_loop_no_match by exact H. reflexivity.
Qed.

End Selection.

(** ** The capture device *)

Lemma CleanupSink_eq (d : CaptureDevice.state) :
  CaptureDevice.CleanupSink d =
  match media_sink_ d with
  | Some _ => (Returned tt, set_capture_started false (set_media_sink None d),
               [EvMediaSampleEvent_remove; EvSink_delete])
  | None => (Returned tt, d, [])
  end.
Proof. unfold CleanupSink. unfold_monad. destruct (media_sink_ d); reflexivity. Qed.

Lemma started_has_sink_preserved (o : operation) (d : CaptureDevice.state) :
  started_has_sink d -> started_has_sink (state_after (run o d)).
Proof.
  unfold started_has_sink, state_after. intros Hinv.
  destruct o; cbn [run]; unfold_device; unfold_monad; cbn; break_match; cbn in *;
    try congruence; try (intros; discriminate); auto;
    intros Hs; exfalso; apply Hinv; congruence.
Qed.

(** What [CaptureDevice::StopCapture] does, case by case. *)
Lemma CaptureDevice_StopCapture_eq (native : Native) (d : CaptureDevice.state) :
  CaptureDevice.StopCapture native d =
  if capture_started_ d then
    match media_capture_ d with
    | None => (Aborted NullDereference, d, [])
    | Some _ =>
        match StopRecordAsync_result native with
        | Completed =>
            match media_sink_ d with
            | Some _ =>
                (Returned tt, set_capture_started false (set_media_sink None d),
                 [EvStopRecordAsync; EvMediaSampleEvent_remove; EvSink_delete])
            | None => (Returned tt, d, [EvStopRecordAsync])
            end
        | Faulted | Threw => (Raised, d, [EvStopRecordAsync])
        end
    end
  else (Returned tt, d, []).
Proof.
  unfold StopCapture, CleanupSink. unfold_monad.
  destruct (capture_started_ d); [|reflexivity].
  destruct (media_capture_ d); [|reflexivity].
  destruct (StopRecordAsync_result native); cbn; try reflexivity.
  destruct (media_sink_ d); reflexivity.
Qed.

(** A started device refuses to start again, and nothing changes. *)
Lemma CaptureDevice_StartCapture_started (native : Native) (profile : MediaEncodingProfile)
    (properties : option VideoEncodingProperties) (d : CaptureDevice.state) :
  started_has_sink d ->
  capture_started_ d = true ->
  CaptureDevice.StartCapture native profile properties d = (Raised, d, []).
Proof.
  intros Hinv Hs. specialize (Hinv Hs). unfold StartCapture. unfold_monad.
  rewrite Hs. destruct (media_sink_ d); [reflexivity | congruence].
Qed.

(** When the chain of [CaptureDevice::StartCapture] goes through. *)
Lemma CaptureDevice_StartCapture_succeeds (native : Native) (profile : MediaEncodingProfile)
    (properties : option VideoEncodingProperties) (d : CaptureDevice.state) :
  capture_started_ d = false ->
  media_capture_ d <> None ->
  InitializeAsync_result native = Completed ->
  SetMediaStreamPropertiesAsync_result native properties = Completed ->
  StartRecordToCustomSinkAsync_result native = Completed ->
  result_of (CaptureDevice.StartCapture native profile properties d) = Returned tt /\
  capture_started_ (state_after (CaptureDevice.StartCapture native profile properties d))
  = true /\
  media_sink_ (state_after (CaptureDevice.StartCapture native profile properties d))
  = Some SinkProxy.
Proof.
  intros Hs Hmc Hi Hp Hr. unfold result_of, state_after.
  unfold_device; unfold_monad. rewrite Hs, Bool.andb_false_r, Hi, Hp, Hr.
  cbn. break_match; cbn; auto; congruence.
Qed.

(** A [StartCapture] that returns has run the three steps once each, in
    their order, all three have completed, and the device is started. *)
Lemma CaptureDevice_StartCapture_returns (native : Native) (profile : MediaEncodingProfile)
    (properties : option VideoEncodingProperties) (d : CaptureDevice.state) :
  result_of (CaptureDevice.StartCapture native profile properties d) = Returned tt ->
  InitializeAsync_result native = Completed /\
  SetMediaStreamPropertiesAsync_result native properties = Completed /\
  StartRecordToCustomSinkAsync_result native = Completed /\
  capture_started_ (state_after (CaptureDevice.StartCapture native profile properties d))
  = true /\
  media_sink_ (state_after (CaptureDevice.StartCapture native profile properties d))
  = Some SinkProxy /\
  calls_of (CaptureDevice.StartCapture native profile properties d)
  = calls_of (CaptureDevice.CleanupSink d)
    ++ [EvSink_new; EvMediaSampleEvent_add;
        EvInitializeAsync (Video profile);
        EvSetMediaStreamPropertiesAsync properties;
        EvStartRecordToCustomSinkAsync profile].
Proof.
  unfold calls_of, result_of, state_after.
  unfold_device; unfold_monad; cbn; break_match; cbn;
    intros H; try discriminate H; repeat split; reflexivity.
Qed.

(** When the sink does not initialize, [StartCapture] throws and the sink
    it has just created stays. *)
Lemma CaptureDevice_StartCapture_sink_init_fails (native : Native)
    (profile : MediaEncodingProfile) (properties : option VideoEncodingProperties)
    (d : CaptureDevice.state) :
  capture_started_ d = false ->
  InitializeAsync_result native <> Completed ->
  result_of (CaptureDevice.StartCapture native profile properties d) = Raised /\
  media_sink_ (state_after (CaptureDevice.StartCapture native profile properties d))
  = Some SinkProxy.
Proof.
  intros Hs Hi. unfold result_of, state_after.
  unfold_device; unfold_monad. rewrite Hs, Bool.andb_false_r.
  cbn. break_match; cbn; auto; congruence.
Qed.

(** The calls of [CaptureDevice::StartCapture] carry the profile and the
    format it was handed, and a start that succeeds records the raw type of
    the profile's subtype. *)
Lemma CaptureDevice_StartCapture_calls (native : Native) (profile : MediaEncodingProfile)
    (properties : option VideoEncodingProperties) (d : CaptureDevice.state) :
  (forall video,
      In (EvInitializeAsync video)
         (calls_of (CaptureDevice.StartCapture native profile properties d)) ->
      video = Video profile) /\
  (forall p,
      In (EvSetMediaStreamPropertiesAsync p)
         (calls_of (CaptureDevice.StartCapture native profile properties d)) ->
      p = properties) /\
  (forall profile',
      In (EvStartRecordToCustomSinkAsync profile')
         (calls_of (CaptureDevice.StartCapture native profile properties d)) ->
      profile' = profile) /\
  (result_of (CaptureDevice.StartCapture native profile properties d) = Returned tt ->
   raw_type_ (state_after (CaptureDevice.StartCapture native profile properties d))
   = raw_type_of_subtype (Subtype (Video profile))).
Proof.
  unfold calls_of, result_of, state_after.
  unfold_device; unfold_monad; cbn; break_match; cbn;
    (split; [|split; [|split]]); intros; split_In; try congruence; try discriminate;
    reflexivity.
Qed.

(** ** The facade *)

Lemma set_device_same (this : VideoCaptureWinRT.state) (d : CaptureDevice.state) :
  VideoCaptureWinRT.device_ this = Some d ->
  VideoCaptureWinRT.set_device (Some d) this = this.
Proof. destruct this; cbn; intros ->; reflexivity. Qed.

(** [VideoCaptureWinRT::StartCapture] on a session that has a device: the
    lookup of the formats, then the device's [StartCapture] with the
    selected format, [0] when that returns and [-1] when it throws. *)
Lemma VideoCaptureWinRT_StartCapture_eq (native : Native) (capability : VideoCaptureCapability)
    (this : VideoCaptureWinRT.state) (subtype : string) (d : CaptureDevice.state) :
  VideoCaptureWinRT.subtype_of_rawType (rawType capability) = Some subtype ->
  VideoCaptureWinRT.device_ this = Some d ->
  GetMediaCapture_result native (VideoCaptureWinRT.device_id_ this) <> None ->
  VideoCaptureWinRT.StartCapture native capability this =
  let '(r, d', t) :=
    CaptureDevice.StartCapture native (VideoCaptureWinRT.encoding_profile subtype capability)
      (best_match subtype capability (GetAvailableMediaStreamProperties_result native)) d in
  (StartCapture_result r,
   VideoCaptureWinRT.set_device (Some d') this,
   EvGetMediaCapture (VideoCaptureWinRT.device_id_ this)
     :: EvGetAvailableMediaStreamProperties :: t).
Proof.
  intros Hs Hd Hlookup. unfold VideoCaptureWinRT.StartCapture. rewrite Hs.
  unfold_monad.
  destruct (GetMediaCapture_result native (VideoCaptureWinRT.device_id_ this));
    [|contradiction].
  rewrite Hd.
  destruct (CaptureDevice.StartCapture native _ _ d) as [[r d'] t].
  destruct r; cbn; rewrite ?app_nil_r; reflexivity.
Qed.

(** When the lookup of the capture object throws, the exception leaves
    [StartCapture]: the lookup is outside [try]. *)
Lemma VideoCaptureWinRT_StartCapture_lookup_throws (native : Native)
    (capability : VideoCaptureCapability) (this : VideoCaptureWinRT.state) (subtype : string) :
  VideoCaptureWinRT.subtype_of_rawType (rawType capability) = Some subtype ->
  GetMediaCapture_result native (VideoCaptureWinRT.device_id_ this) = None ->
  VideoCaptureWinRT.StartCapture native capability this =
  (Raised, this, [EvGetMediaCapture (VideoCaptureWinRT.device_id_ this)]).
Proof.
  intros Hs Hlookup. unfold VideoCaptureWinRT.StartCapture. rewrite Hs.
  unfold_monad. rewrite Hlookup. reflexivity.
Qed.

(** Without a device the call dereferences [nullptr]. *)
Lemma VideoCaptureWinRT_StartCapture_no_device (native : Native)
    (capability : VideoCaptureCapability) (this : VideoCaptureWinRT.state) (subtype : string) :
  VideoCaptureWinRT.subtype_of_rawType (rawType capability) = Some subtype ->
  VideoCaptureWinRT.device_ this = None ->
  GetMediaCapture_result native (VideoCaptureWinRT.device_id_ this) <> None ->
  VideoCaptureWinRT.StartCapture native capability this =
  (Aborted NullDereference, this,
   [EvGetMediaCapture (VideoCaptureWinRT.device_id_ this); EvGetAvailableMediaStreamProperties]).
Proof.
  intros Hs Hd Hlookup. unfold VideoCaptureWinRT.StartCapture. rewrite Hs.
  unfold_monad.
  destruct (GetMediaCapture_result native (VideoCaptureWinRT.device_id_ this));
    [|contradiction].
  rewrite Hd. reflexivity.
Qed.

Lemma VideoCaptureWinRT_StartCapture_unsupported (native : Native)
    (capability : VideoCaptureCapability) (this : VideoCaptureWinRT.state) :
  VideoCaptureWinRT.subtype_of_rawType (rawType capability) = None ->
  VideoCaptureWinRT.StartCapture native capability this =
  (Returned (-1), this,
   [EvTrace "The specified raw video format is not supported on this plaform." []]).
Proof.
  intros Hs. unfold VideoCaptureWinRT.StartCapture. rewrite Hs. reflexivity.
Qed.

(** The format that [VideoCaptureWinRT::StartCapture] applies is the one
    the loop selected for the subtype of the requested raw type. *)
Lemma StartCapture_applies_best_match (native : Native) (capability : VideoCaptureCapability)
    (this : VideoCaptureWinRT.state) (p : option VideoEncodingProperties) :
  In (EvSetMediaStreamPropertiesAsync p)
     (calls_of (VideoCaptureWinRT.StartCapture native capability this)) ->
  exists subtype,
    VideoCaptureWinRT.subtype_of_rawType (rawType capability) = Some subtype /\
    p = best_match subtype capability (GetAvailableMediaStreamProperties_result native).
Proof.
  destruct (VideoCaptureWinRT.subtype_of_rawType (rawType capability)) as [subtype|] eqn:Hs.
  - intros H. exists subtype. split; [reflexivity|].
    destruct (GetMediaCapture_result native (VideoCaptureWinRT.device_id_ this))
      as [mediaCapture|] eqn:Hlookup.
    + assert (Hl : GetMediaCapture_result native (VideoCaptureWinRT.device_id_ this) <> None)
        by (rewrite Hlookup; discriminate).
      destruct (VideoCaptureWinRT.device_ this) as [d|] eqn:Hd.
      * rewrite (VideoCaptureWinRT_StartCapture_eq _ _ _ _ _ Hs Hd Hl) in H.
        pose proof (proj1 (proj2 (CaptureDevice_StartCapture_calls native
                      (VideoCaptureWinRT.encoding_profile subtype capability)
                      (best_match subtype capability
                         (GetAvailableMediaStreamProperties_result native))
                      d)) p) as Hdev.
        destruct (CaptureDevice.StartCapture native _ _ d) as [[r d'] t].
        unfold calls_of in *. cbn [snd] in *. split_In; try discriminate. auto.
      * rewrite (VideoCaptureWinRT_StartCapture_no_device _ _ _ _ Hs Hd Hl) in H.
        unfold calls_of in H. cbn [snd] in H. split_In; discriminate.
    + rewrite (VideoCaptureWinRT_StartCapture_lookup_throws _ _ _ _ Hs Hlookup) in H.
      unfold calls_of in H. cbn [snd] in H. split_In; discriminate.
  - rewrite (VideoCaptureWinRT_StartCapture_unsupported _ _ _ Hs).
    unfold calls_of. cbn [snd]. intros H. split_In; discriminate.
Qed.

(** After a [StartCapture] that returned [0] the session holds a started
    device with its sink. *)
Lemma VideoCaptureWinRT_StartCapture_returns_0 (native : Native)
    (capability : VideoCaptureCapability) (this : VideoCaptureWinRT.state) :
  result_of (VideoCaptureWinRT.StartCapture native capability this) = Returned 0 ->
  exists d',
    VideoCaptureWinRT.device_ (state_after (VideoCaptureWinRT.StartCapture native capability this))
    = Some d' /\
    capture_started_ d' = true /\
    media_sink_ d' = Some SinkProxy.
Proof.
  destruct (VideoCaptureWinRT.subtype_of_rawType (rawType capability)) as [subtype|] eqn:Hs.
  - destruct (GetMediaCapture_result native (VideoCaptureWinRT.device_id_ this))
      as [mediaCapture|] eqn:Hlookup.
    + assert (Hl : GetMediaCapture_result native (VideoCaptureWinRT.device_id_ this) <> None)
        by (rewrite Hlookup; discriminate).
      destruct (VideoCaptureWinRT.device_ this) as [d|] eqn:Hd.
      * rewrite (VideoCaptureWinRT_StartCapture_eq _ _ _ _ _ Hs Hd Hl).
        pose proof (CaptureDevice_StartCapture_returns native
                      (VideoCaptureWinRT.encoding_profile subtype capability)
                      (best_match subtype capability
                         (GetAvailableMediaStreamProperties_result native)) d) as Hret.
        unfold result_of, state_after in *.
        destruct (CaptureDevice.StartCapture native _ _ d) as [[r d'] t]. cbn [fst snd] in *.
        intros Hr. destruct r as [[]| |why]; try discriminate Hr.
        destruct (Hret eq_refl) as (_ & _ & _ & Hstarted & Hsink & _).
        exists d'. split; [reflexivity|]. split; assumption.
      * rewrite (VideoCaptureWinRT_StartCapture_no_device _ _ _ _ Hs Hd Hl).
        intros H. discriminate H.
    + rewrite (VideoCaptureWinRT_StartCapture_lookup_throws _ _ _ _ Hs Hlookup).
      intros H. discriminate H.
  - rewrite (VideoCaptureWinRT_StartCapture_unsupported _ _ _ Hs).
    intros H. discriminate H.
Qed.

Lemma VideoCaptureWinRT_StopCapture_eq (native : Native) (this : VideoCaptureWinRT.state)
    (d : CaptureDevice.state) :
  VideoCaptureWinRT.device_ this = Some d ->
  VideoCaptureWinRT.StopCapture native this =
  let '(r, d', t) := CaptureDevice.StopCapture native d in
  (StopCapture_result r, VideoCaptureWinRT.set_device (Some d') this, t).
Proof.
  intros Hd. unfold VideoCaptureWinRT.StopCapture. unfold_monad. rewrite Hd.
  destruct (CaptureDevice.StopCapture native d) as [[r d'] t].
  destruct r; cbn; rewrite ?app_nil_r; reflexivity.
Qed.

Lemma VideoCaptureWinRT_StopCapture_not_started (native : Native)
    (this : VideoCaptureWinRT.state) (d : CaptureDevice.state) :
  VideoCaptureWinRT.device_ this = Some d ->
  capture_started_ d = false ->
  VideoCaptureWinRT.StopCapture native this = (Returned 0, this, []).
Proof.
  intros Hd Hs. rewrite (VideoCaptureWinRT_StopCapture_eq native this d Hd).
  rewrite CaptureDevice_StopCapture_eq, Hs. rewrite (set_device_same _ _ Hd). reflexivity.
Qed.

(** What [Init] does with an identifier once its length, as [Init] keeps
    it, passes the check, on a new object and a platform whose enumeration
    fails. *)
Lemma Init_without_enumeration (k : Z) (native : Native) (id : Z) (device_unique_id : string)
    (this : VideoCaptureWinRT.state) :
  Int32.to_int32 (strlen device_unique_id) <= k ->
  FindAllAsync_result native = None ->
  VideoCaptureWinRT.device_ this = None ->
  VideoCaptureWinRT.Init k native id device_unique_id this
  = (let '(r, device', t) :=
       CaptureDevice.Initialize native None
         (CaptureDevice.new (Some (FrameCallback (VideoCaptureWinRT._id this)))) in
     (match r with
      | Returned _ => Returned 0
      | Raised => Returned 0
      | Aborted why => Aborted why
      end,
      match r with
      | Returned _ => VideoCaptureWinRT.mkState (VideoCaptureWinRT._id this) None (Some device')
      | _ => VideoCaptureWinRT.mkState (VideoCaptureWinRT._id this) None None
      end,
      EvTrace "Init called for device %s" [] :: EvFindAllAsync :: t)).
Proof.
  intros Hlen Hfind Hdev. destruct this as [id0 device_id0 device0].
  cbn in Hdev. subst device0. unfold VideoCaptureWinRT.Init.
  destruct (Z.gtb_spec (Int32.to_int32 (strlen device_unique_id)) k) as [Hgt|_]; [lia|].
  unfold_monad. rewrite Hfind. cbn.
  destruct (CaptureDevice.Initialize native None _) as [[r device'] t].
  destruct r; cbn; rewrite ?app_nil_r; reflexivity.
Qed.

(** [Init] on an object that holds no device, when no capture object can
    be obtained: [Initialize] throws, and [Init] returns [0] with no device
    stored. *)
Lemma Init_without_device (k : Z) (native : Native) (id : Z) (device_unique_id : string)
    (this : VideoCaptureWinRT.state) :
  Int32.to_int32 (strlen device_unique_id) <= k ->
  VideoCaptureWinRT.device_ this = None ->
  (forall deviceId, GetMediaCapture_result native deviceId = None) ->
  result_of (VideoCaptureWinRT.Init k native id device_unique_id this) = Returned 0 /\
  VideoCaptureWinRT.device_ (state_after (VideoCaptureWinRT.Init k native id device_unique_id this))
  = None.
Proof.
  intros Hlen Hdev Hnone. destruct this as [id0 device_id0 device0].
  cbn in Hdev. subst device0. unfold result_of, state_after, VideoCaptureWinRT.Init.
  destruct (Z.gtb_spec (Int32.to_int32 (strlen device_unique_id)) k) as [Hgt|_]; [lia|].
  unfold Initialize, DoCleanup, CleanupSink. unfold_monad. cbn.
  destruct (FindAllAsync_result native) as [devices|]; cbn.
  - destruct (Nat.eqb (List.length devices) 0); cbn;
      destruct (find _ devices); cbn; rewrite Hnone; cbn; split; reflexivity.
  - rewrite Hnone. cbn. split; reflexivity.
Qed.

(** * The claims of the specification *)

(** C1 (as amended).  For every requested capability and every list of
    offered formats in which each format of the requested subtype differs
    from the request by at most [INT_MAX] in width, in height and in frame
    rate, and not by [INT_MAX] in all three, the format selected by
    [StartCapture] is, among the offered formats whose subtype equals the
    requested one, the lexicographically least under (|width difference|,
    |height difference|, |fps difference|), and the first such format in
    the order of enumeration; no format is selected only when none has the
    subtype.  It is the format [StartCapture] applies to the device. *)
Theorem StartCapture_format_first_lex_min :
  forall (native : Native) (capability : VideoCaptureCapability) (subtype : string),
    VideoCaptureWinRT.subtype_of_rawType (rawType capability) = Some subtype ->
    (forall prop,
        In prop (GetAvailableMediaStreamProperties_result native) ->
        subtype_matches subtype prop = true ->
        within_int capability prop) ->
    first_lex_min subtype capability (GetAvailableMediaStreamProperties_result native)
      (best_match subtype capability (GetAvailableMediaStreamProperties_result native)) /\
    forall this p,
      In (EvSetMediaStreamPropertiesAsync p)
         (calls_of (VideoCaptureWinRT.StartCapture native capability this)) ->
      p = best_match subtype capability (GetAvailableMediaStreamProperties_result native).
Proof.
  intros native capability subtype Hs Hrange. split.
  - apply best_match_first_lex_min. exact Hrange.
  - intros this p H. apply StartCapture_applies_best_match in H.
    destruct H as (subtype' & Hs' & ->). congruence.
Qed.

Lemma StartCapture_format_first_lex_min_witness :
  best_match "YUY2" capability_vga (GetAvailableMediaStreamProperties_result native_ok)
    = Some (mkProps "YUY2" 640 480 (mkRatio 30 1)) /\
  first_lex_min "YUY2" capability_vga (GetAvailableMediaStreamProperties_result native_ok)
    (best_match "YUY2" capability_vga (GetAvailableMediaStreamProperties_result native_ok)).
Proof.
  split; [reflexivity|].
  refine (proj1 (StartCapture_format_first_lex_min native_ok capability_vga "YUY2" eq_refl _)).
  intros prop Hin Hm. cbn in Hin.
  destruct Hin as [<-|[<-|[<-|[<-|[]]]]]; try discriminate Hm;
    vm_compute; repeat split; discriminate.
Defined.

(** C1 (counterexample).  A request for 640x480 against a format of width
    4294967295 and one of width 1920: the 32-bit difference of the first is
    641 and it is selected, although 1920 is nearer to 640. *)
Lemma best_match_wraps_32_bit :
  let capability := mkCapability 640 480 30 kVideoYUY2 in
  let far := mkProps "YUY2" 4294967295 480 (mkRatio 30 1) in
  let near := mkProps "YUY2" 1920 480 (mkRatio 30 1) in
  widthDiff capability far = 641 /\
  widthDiff capability near = 1280 /\
  best_match "YUY2" capability [far; near] = Some far /\
  ~ first_lex_min "YUY2" capability [far; near] (best_match "YUY2" capability [far; near]).
Proof.
  intros capability far near.
  assert (E : best_match "YUY2" capability [far; near] = Some far) by reflexivity.
  split; [reflexivity|]. split; [reflexivity|].
  split; [exact E|]. rewrite E. intros (i & _ & _ & Hall).
  destruct (Hall 1%nat near eq_refl eq_refl) as [[Hlt|Heq] _].
  - vm_compute in Hlt. destruct Hlt as [Hlt|[Hlt _]]; discriminate Hlt.
  - discriminate Heq.
Qed.

(** The other input on which the selection is not the least format: a
    format of the requested subtype whose three differences are [INT_MAX],
    the initial value of the running minima, is never selected. *)
Lemma best_match_misses_INT_MAX_triple :
  let capability := mkCapability 0 0 2147483647 kVideoYUY2 in
  let only := mkProps "YUY2" 2147483647 2147483647 (mkRatio 0 1) in
  subtype_matches "YUY2" only = true /\
  (widthDiff capability only, heightDiff capability only, fpsDiff capability only)
  = (Int32.INT_MAX, Int32.INT_MAX, Int32.INT_MAX) /\
  best_match "YUY2" capability [only] = None.
Proof. repeat split; reflexivity. Qed.

(** C2 (as amended).  When no offered format has the subtype of a
    request of a supported raw type, on a session that holds a device and
    for which the lookup of the capture object succeeds, the loop selects
    no format, and [StartCapture] does not stop there: it calls the capture
    device's [StartCapture] with the null format, returns [-1] when that
    call throws and [0] when it returns; the call returns, with the capture
    started, whenever the device is bound and not started, the sink
    initializes, the platform lets the null format pass, and recording
    begins. *)
Theorem StartCapture_no_matching_format :
  forall (native : Native) (capability : VideoCaptureCapability) (subtype : string)
         (this : VideoCaptureWinRT.state) (d : CaptureDevice.state),
    VideoCaptureWinRT.subtype_of_rawType (rawType capability) = Some subtype ->
    (forall prop,
        In prop (GetAvailableMediaStreamProperties_result native) ->
        subtype_matches subtype prop = false) ->
    VideoCaptureWinRT.device_ this = Some d ->
    GetMediaCapture_result native (VideoCaptureWinRT.device_id_ this) <> None ->
    best_match subtype capability (GetAvailableMediaStreamProperties_result native) = None /\
    VideoCaptureWinRT.StartCapture native capability this =
      (let '(r, d', t) :=
         CaptureDevice.StartCapture native
           (VideoCaptureWinRT.encoding_profile subtype capability) None d in
       (StartCapture_result r,
        VideoCaptureWinRT.set_device (Some d') this,
        EvGetMediaCapture (VideoCaptureWinRT.device_id_ this)
          :: EvGetAvailableMediaStreamProperties :: t)) /\
    (capture_started_ d = false ->
     media_capture_ d <> None ->
     InitializeAsync_result native = Completed ->
     SetMediaStreamPropertiesAsync_result native None = Completed ->
     StartRecordToCustomSinkAsync_result native = Completed ->
     result_of (VideoCaptureWinRT.StartCapture native capability this) = Returned 0 /\
     exists d',
       VideoCaptureWinRT.device_
         (state_after (VideoCaptureWinRT.StartCapture native capability this))
         = Some d' /\
       capture_started_ d' = true).
Proof.
  intros native capability subtype this d Hs Hnone Hd Hlookup.
  pose proof (best_match_none subtype capability _ Hnone) as Hbm.
  pose proof (VideoCaptureWinRT_StartCapture_eq native capability this subtype d Hs Hd Hlookup)
    as Heq.
  rewrite Hbm in Heq. split; [exact Hbm|]. split; [exact Heq|].
  intros H1 H2 H3 H4 H5. rewrite Heq.
  destruct (CaptureDevice_StartCapture_succeeds native
              (VideoCaptureWinRT.encoding_profile subtype capability) None d H1 H2 H3 H4 H5)
    as (Hr & Hst & _).
  unfold result_of, state_after in *.
  destruct (CaptureDevice.StartCapture native _ None d) as [[r d'] t]. cbn in *. subst r.
  split; [reflexivity|]. exists d'. split; [reflexivity | exact Hst].
Qed.

Lemma StartCapture_no_matching_format_witness :
  best_match "YUY2" capability_vga (GetAvailableMediaStreamProperties_result native_nv12_only)
    = None /\
  result_of (VideoCaptureWinRT.StartCapture native_nv12_only capability_vga session_camB)
    = Returned 0.
Proof.
  assert (Hnone : forall prop,
             In prop (GetAvailableMediaStreamProperties_result native_nv12_only) ->
             subtype_matches "YUY2" prop = false).
  { intros prop Hin. cbn in Hin. destruct Hin as [<-|[]]. reflexivity. }
  assert (Hlookup : GetMediaCapture_result native_nv12_only
                      (VideoCaptureWinRT.device_id_ session_camB) <> None)
    by (cbn; discriminate).
  destruct (StartCapture_no_matching_format native_nv12_only capability_vga "YUY2"
              session_camB device_camB eq_refl Hnone eq_refl Hlookup) as (H1 & _ & H3).
  split; [exact H1|].
  apply H3; try reflexivity. discriminate.
Defined.

(** C2 (counterexample).  A YUY2 request against a camera that offers NV12
    only: no format is selected, the null format is handed to the platform,
    recording begins and [StartCapture] returns [0] with the capture
    started. *)
Lemma StartCapture_starts_without_format :
  (forall prop,
      In prop (GetAvailableMediaStreamProperties_result native_nv12_only) ->
      subtype_matches "YUY2" prop = false) /\
  VideoCaptureWinRT.StartCapture native_nv12_only capability_vga session_camB
  = (Returned 0,
     session_started,
     [EvGetMediaCapture (Some "camB");
      EvGetAvailableMediaStreamProperties;
      EvSink_new;
      EvMediaSampleEvent_add;
      EvInitializeAsync (mkProps "YUY2" 640 480 (mkRatio 30 1));
      EvSetMediaStreamPropertiesAsync None;
      EvStartRecordToCustomSinkAsync (mkProfile (mkProps "YUY2" 640 480 (mkRatio 30 1)))]) /\
  VideoCaptureWinRT.CaptureStarted session_started = (Returned true, session_started, []).
Proof.
  split; [|split; reflexivity].
  intros prop Hin. cbn in Hin. destruct Hin as [<-|[]]. reflexivity.
Qed.

(** C3 (the code at the failing input).  [Init] on a newly constructed
    object, with a platform on which [GetMediaCapture] throws: [Initialize]
    throws, the handler finds [device_] null and skips its body, and [Init]
    returns [0].  The same failure on a session that holds a device from an
    earlier [Init] returns [-1]; in both cases no device is stored
    afterwards. *)
Theorem Init_failure_returns_0 :
  VideoCaptureWinRT.Init 1024 native_no_capture 7 "camB" (VideoCaptureWinRT.new 7)
    = (Returned 0,
       VideoCaptureWinRT.mkState 7 (Some "camB") None,
       [EvTrace "Init called for device %s" []; EvFindAllAsync;
        EvGetMediaCapture (Some "camB")]) /\
  VideoCaptureWinRT.Init 1024 native_no_capture 7 "camB" session_camB
    = (Returned (-1),
       VideoCaptureWinRT.mkState 7 None None,
       [EvTrace "Init called for device %s" []; EvFindAllAsync;
        EvGetMediaCapture (Some "camB"); EvFailed_remove; EvFailed_remove]).
Proof. split; reflexivity. Qed.

(** C4 (the code at the failing inputs).  When the sink's initialization
    ends with an error, [StartCapture] throws and the sink it created
    stays.  When applying the stream properties ends with an error, the
    chain goes on and requests the recording; no exception reaches the
    caller, the sink stays, and the error is left unobserved.  Only when
    beginning to record ends with an error is the sink released before the
    exception leaves. *)
Theorem StartCapture_step_failures :
  CaptureDevice.StartCapture native_sink_init_faults profile_vga properties_vga device_camB
    = (Raised,
       CaptureDevice.mkState (Some (mkMediaCapture (Some "camB"))) (Some SinkProxy)
         (Some (FrameCallback 7)) false 640 480 30 kVideoYUY2,
       [EvSink_new; EvMediaSampleEvent_add; EvInitializeAsync (Video profile_vga)]) /\
  CaptureDevice.StartCapture native_set_properties_faults profile_vga properties_vga device_camB
    = (Aborted UnobservedError,
       CaptureDevice.mkState (Some (mkMediaCapture (Some "camB"))) (Some SinkProxy)
         (Some (FrameCallback 7)) false 640 480 30 kVideoYUY2,
       [EvSink_new; EvMediaSampleEvent_add; EvInitializeAsync (Video profile_vga);
        EvSetMediaStreamPropertiesAsync properties_vga;
        EvStartRecordToCustomSinkAsync profile_vga]) /\
  CaptureDevice.StartCapture native_start_record_faults profile_vga properties_vga device_camB
    = (Raised,
       CaptureDevice.mkState (Some (mkMediaCapture (Some "camB"))) None
         (Some (FrameCallback 7)) false 640 480 30 kVideoYUY2,
       [EvSink_new; EvMediaSampleEvent_add; EvInitializeAsync (Video profile_vga);
        EvSetMediaStreamPropertiesAsync properties_vga;
        EvStartRecordToCustomSinkAsync profile_vga;
        EvMediaSampleEvent_remove; EvSink_delete]).
Proof. repeat split; reflexivity. Qed.




(** C6 (the code at the failing input).  [StopCapture] on a started
    session whose stop request ends with an error: the continuation that
    releases the sink takes no task and is skipped, the exception leaves
    [StopCapture], which has no handler and whose only [return] is [0], and
    the session stays started, with its sink.  [Cleanup], whose
    continuation takes the task, releases the sink on that same failure.
    And on a session whose last [StartCapture] failed while the sink
    initialized, [StopCapture] returns [0] and the sink is still there. *)
Theorem StopCapture_native_failure_escapes :
  VideoCaptureWinRT.StopCapture native_stop_faults session_started
    = (Raised, session_started, [EvStopRecordAsync]) /\
  media_sink_ (state_after (CaptureDevice.Cleanup native_stop_faults device_started)) = None /\
  capture_started_ (state_after (CaptureDevice.Cleanup native_stop_faults device_started))
  = false /\
  let failed_start :=
    state_after (VideoCaptureWinRT.StartCapture native_sink_init_faults capability_vga
                   session_camB) in
  VideoCaptureWinRT.StopCapture native_ok failed_start = (Returned 0, failed_start, []) /\
  exists d,
    VideoCaptureWinRT.device_ failed_start = Some d /\
    capture_started_ d = false /\
    media_sink_ d = Some SinkProxy.
Proof.
  split; [reflexivity|]. split; [reflexivity|]. split; [reflexivity|].
  split; [reflexivity|].
  eexists. split; [reflexivity|]. split; reflexivity.
Qed.

(** C7 (as amended).  For every device identifier whose length exceeds
    [kVideoCaptureUniqueNameLength] and is at most [INT_MAX], so that the
    [int32_t] in which [Init] keeps it holds it, [Init] returns [-1]; it has
    then made no call on the platform, device enumeration included, and the
    session is as it was. *)
Theorem Init_rejects_long_identifier :
  forall (kVideoCaptureUniqueNameLength : Z) (native : Native) (id : Z)
         (device_unique_id : string) (this : VideoCaptureWinRT.state),
    kVideoCaptureUniqueNameLength < strlen device_unique_id ->
    strlen device_unique_id <= Int32.INT_MAX ->
    VideoCaptureWinRT.Init kVideoCaptureUniqueNameLength native id device_unique_id this
    = (Returned (-1), this, [EvTrace "Device name too long" []]).
Proof.
  intros k native id device_unique_id this Hlong Hfits. unfold VideoCaptureWinRT.Init.
  assert (Hpos : 0 <= strlen device_unique_id) by (unfold strlen; lia).
  rewrite to_int32_small by (unfold Int32.INT_MIN; lia).
  destruct (Z.gtb_spec (strlen device_unique_id) k) as [_|Hle]; [reflexivity | lia].
Qed.

Lemma Init_rejects_long_identifier_witness :
  VideoCaptureWinRT.Init 4 native_ok 7 "camera-B" session_camB
  = (Returned (-1), session_camB, [EvTrace "Device name too long" []]).
Proof.
  apply (Init_rejects_long_identifier 4 native_ok 7 "camera-B" session_camB).
  - vm_compute. reflexivity.
  - vm_compute. discriminate.
Defined.

(** C7 (counterexample).  An identifier of 2^31 characters is longer than
    a maximum of 1024, and [Init] does not reject it: kept in an [int32_t]
    its length is negative, the check passes, the devices are enumerated
    and [Init] returns [0]. *)
Lemma Init_accepts_overlong_identifier :
  let device_unique_id := replicate (Z.to_nat 2147483648) "a" in
  1024 < strlen device_unique_id /\
  Int32.to_int32 (strlen device_unique_id) = -2147483648 /\
  VideoCaptureWinRT.Init 1024 native_no_enumeration 7 device_unique_id (VideoCaptureWinRT.new 7)
  = (Returned 0,
     VideoCaptureWinRT.mkState 7 None
       (Some (CaptureDevice.mkState (Some (mkMediaCapture None)) None
                (Some (FrameCallback 7)) false 0 0 0 kVideoUnknown)),
     [EvTrace "Init called for device %s" []; EvFindAllAsync;
      EvGetMediaCapture None; EvFailed_add]).
Proof.
  intros device_unique_id.
  assert (Hlen : strlen device_unique_id = 2147483648)
    by (apply strlen_replicate; lia).
  clearbody device_unique_id. split; [lia|].
  split; [rewrite Hlen; reflexivity|].
  rewrite Init_without_enumeration; [reflexivity | | reflexivity | reflexivity].
  rewrite Hlen. vm_compute. discriminate.
Qed.

(** C8 (as amended).  For every sample delivered to a device that has a
    frame callback and whose buffer locks, the capture time that
    [OnMediaSample] computes, and writes to the trace, is the sample time
    in units of 100 ns divided by 10000 with the quotient truncated toward
    zero; a sample time of 1234560 gives 123.  The frame callback receives
    the buffer, its length and the negotiated format, and no capture
    time. *)
Theorem OnMediaSample_capture_time :
  forall (d : CaptureDevice.state) (sample : MediaSample) (callback : IncomingFrameCallback),
    incoming_frame_callback_ d = Some callback ->
    SUCCEEDED (lock_hr sample) = true ->
    CaptureDevice.OnMediaSample sample d
    = (Returned tt, d,
       [EvTrace "Video Capture - OnMediaSample - video frame length: %d, capture time: %lld"
          [cbCurrentLength sample; Z.quot (hnsSampleTime sample) 10000];
        EvOnIncomingFrame (videoFrame sample) (cbCurrentLength sample)
          (mkCapability (frame_width_ d) (frame_height_ d) (max_fps_ d) (raw_type_ d));
        EvUnlock]) /\
    (hnsSampleTime sample = 1234560 -> captureTime sample = 123).
Proof.
  intros d sample callback Hcb Hhr. split.
  - unfold OnMediaSample. unfold_monad. rewrite Hcb, Hhr. reflexivity.
  - intros H. unfold captureTime. rewrite H. reflexivity.
Qed.

Lemma OnMediaSample_capture_time_witness :
  calls_of (CaptureDevice.OnMediaSample sample_1234560 device_started)
  = [EvTrace "Video Capture - OnMediaSample - video frame length: %d, capture time: %lld"
       [3; 123];
     EvOnIncomingFrame [x00; x01; x02]%byte 3 (mkCapability 640 480 30 kVideoYUY2);
     EvUnlock] /\
  captureTime sample_1234560 = 123.
Proof.
  destruct (OnMediaSample_capture_time device_started sample_1234560 (FrameCallback 7)
              eq_refl eq_refl) as (H1 & H2).
  split; [rewrite H1; reflexivity | exact (H2 eq_refl)].
Defined.

(** C8 (counterexample).  Two samples that differ in their sample time
    only, 1234560 and 0, are forwarded to the frame callback as the same
    frame: what is forwarded with a frame does not determine the capture
    time, which is 123 for the first and 0 for the second. *)
Lemma OnMediaSample_forwards_no_capture_time :
  captureTime sample_1234560 = 123 /\
  captureTime sample_0 = 0 /\
  forwarded_frames (calls_of (CaptureDevice.OnMediaSample sample_1234560 device_started))
  = forwarded_frames (calls_of (CaptureDevice.OnMediaSample sample_0 device_started)) /\
  ~ exists capture_time_of : event -> Z,
      forall (sample : MediaSample) (e : event),
        In e (forwarded_frames (calls_of (CaptureDevice.OnMediaSample sample device_started))) ->
        capture_time_of e = Z.quot (hnsSampleTime sample) 10000.
Proof.
  split; [reflexivity|]. split; [reflexivity|]. split; [reflexivity|].
  intros (f & Hf).
  pose proof (Hf sample_1234560 _ (or_introl eq_refl)) as H1.
  pose proof (Hf sample_0 _ (or_introl eq_refl)) as H2.
  cbn in H1, H2. rewrite H1 in H2. discriminate H2.
Qed.

(** C9.  For every [StartCapture] whose capability has the raw type ARGB,
    the subtype chosen is RGB24: the encoding profile handed to the sink and
    to the recording has the subtype RGB24, the format applied to the device
    is the one selected among the offered RGB24 formats, and a start that
    succeeds records the raw type RGB24. *)
Theorem StartCapture_ARGB_uses_Rgb24 :
  forall (native : Native) (capability : VideoCaptureCapability)
         (this : VideoCaptureWinRT.state),
    rawType capability = kVideoARGB ->
    VideoCaptureWinRT.subtype_of_rawType (rawType capability)
      = Some MediaEncodingSubtypes.Rgb24 /\
    (forall video,
        In (EvInitializeAsync video)
           (calls_of (VideoCaptureWinRT.StartCapture native capability this)) ->
        Subtype video = MediaEncodingSubtypes.Rgb24) /\
    (forall profile,
        In (EvStartRecordToCustomSinkAsync profile)
           (calls_of (VideoCaptureWinRT.StartCapture native capability this)) ->
        Subtype (Video profile) = MediaEncodingSubtypes.Rgb24) /\
    (forall p,
        In (EvSetMediaStreamPropertiesAsync p)
           (calls_of (VideoCaptureWinRT.StartCapture native capability this)) ->
        p = best_match MediaEncodingSubtypes.Rgb24 capability
              (GetAvailableMediaStreamProperties_result native) /\
        forall f, p = Some f -> subtype_matches MediaEncodingSubtypes.Rgb24 f = true) /\
    (result_of (VideoCaptureWinRT.StartCapture native capability this) = Returned 0 ->
     exists d',
       VideoCaptureWinRT.device_
         (state_after (VideoCaptureWinRT.StartCapture native capability this))
         = Some d' /\
       raw_type_ d' = kVideoRGB24).
Proof.
  intros native capability this Hargb.
  assert (Hs : VideoCaptureWinRT.subtype_of_rawType (rawType capability)
               = Some MediaEncodingSubtypes.Rgb24) by (rewrite Hargb; reflexivity).
  split; [exact Hs|].
  assert (Hp : forall p,
             In (EvSetMediaStreamPropertiesAsync p)
                (calls_of (VideoCaptureWinRT.StartCapture native capability this)) ->
             p = best_match MediaEncodingSubtypes.Rgb24 capability
                   (GetAvailableMediaStreamProperties_result native) /\
             forall f, p = Some f -> subtype_matches MediaEncodingSubtypes.Rgb24 f = true).
  { intros p H. apply StartCapture_applies_best_match in H.
    destruct H as (subtype & Hs' & ->). rewrite Hs in Hs'. injection Hs' as <-.
    split; [reflexivity|]. intros f Hf. apply best_match_matches in Hf. apply Hf. }
  destruct (GetMediaCapture_result native (VideoCaptureWinRT.device_id_ this))
    as [mediaCapture|] eqn:Hlookup;
    [|rewrite (VideoCaptureWinRT_StartCapture_lookup_throws _ _ _ _ Hs Hlookup) in *;
      unfold calls_of, result_of, state_after in *; cbn [fst snd] in *;
      split; [|split; [|split; [exact Hp|]]];
      [ intros video H; split_In; discriminate
      | intros profile H; split_In; discriminate
      | intros Hr; discriminate Hr ]].
  assert (Hl : GetMediaCapture_result native (VideoCaptureWinRT.device_id_ this) <> None)
    by (rewrite Hlookup; discriminate).
  destruct (VideoCaptureWinRT.device_ this) as [d|] eqn:Hd.
  - rewrite (VideoCaptureWinRT_StartCapture_eq _ _ _ _ _ Hs Hd Hl) in *.
    destruct (CaptureDevice_StartCapture_calls native
                (VideoCaptureWinRT.encoding_profile MediaEncodingSubtypes.Rgb24 capability)
                (best_match MediaEncodingSubtypes.Rgb24 capability
                   (GetAvailableMediaStreamProperties_result native)) d)
      as (Hv & _ & Hpr & Hraw).
    unfold calls_of, result_of, state_after in *.
    destruct (CaptureDevice.StartCapture native _ _ d) as [[r d'] t]. cbn [fst snd] in *.
    split; [|split; [|split; [exact Hp|]]].
    + intros video H. split_In; try discriminate. rewrite (Hv video H). reflexivity.
    + intros profile H. split_In; try discriminate. rewrite (Hpr profile H). reflexivity.
    + intros Hr. destruct r; try discriminate Hr. destruct a.
      exists d'. split; [reflexivity|]. rewrite (Hraw eq_refl). reflexivity.
  - rewrite (VideoCaptureWinRT_StartCapture_no_device _ _ _ _ Hs Hd Hl) in *.
    unfold calls_of, result_of, state_after in *. cbn [fst snd] in *.
    split; [|split; [|split; [exact Hp|]]].
    + intros video H. split_In; discriminate.
    + intros profile H. split_In; discriminate.
    + intros Hr. discriminate Hr.
Qed.

Lemma StartCapture_ARGB_uses_Rgb24_witness :
  VideoCaptureWinRT.subtype_of_rawType (rawType capability_argb) = Some "RGB24" /\
  In (EvSetMediaStreamPropertiesAsync (Some (mkProps "RGB24" 1280 720 (mkRatio 30 1))))
     (calls_of (VideoCaptureWinRT.StartCapture native_rgb capability_argb session_camB)) /\
  exists d',
    VideoCaptureWinRT.device_
      (state_after (VideoCaptureWinRT.StartCapture native_rgb capability_argb session_camB))
      = Some d' /\
    raw_type_ d' = kVideoRGB24.
Proof.
  destruct (StartCapture_ARGB_uses_Rgb24 native_rgb capability_argb session_camB eq_refl)
    as (H1 & _ & _ & _ & H5).
  split; [exact H1|]. split.
  - cbn. do 5 right. left. reflexivity.
  - apply H5. reflexivity.
Defined.

(** C10.  A started capture device has a sink: the constructor establishes
    it, every operation of the device ([Initialize], [CleanupSink],
    [DoCleanup], [Cleanup], [StartCapture], [StopCapture], [OnMediaSample])
    preserves it however the operation ends, and [CleanupSink] leaves the
    device without a sink and not started. *)
Theorem started_has_sink_invariant :
  (forall callback, started_has_sink (CaptureDevice.new callback)) /\
  (forall (o : operation) (d : CaptureDevice.state),
      started_has_sink d -> started_has_sink (state_after (run o d))) /\
  (forall d : CaptureDevice.state,
      started_has_sink d ->
      media_sink_ (state_after (CaptureDevice.CleanupSink d)) = None /\
      capture_started_ (state_after (CaptureDevice.CleanupSink d)) = false).
Proof.
  split; [|split].
  - intros callback H. discriminate H.
  - exact started_has_sink_preserved.
  - intros d Hinv. rewrite CleanupSink_eq. unfold state_after, started_has_sink in *.
    destruct (media_sink_ d) eqn:Hsink; cbn; [split; reflexivity|].
    split; [exact Hsink|].
    destruct (capture_started_ d); [|reflexivity].
    exfalso. apply Hinv; reflexivity.
Qed.

Lemma started_has_sink_invariant_witness :
  started_has_sink device_started /\
  started_has_sink (state_after (run (OpStopCapture native_ok) device_started)) /\
  started_has_sink
    (state_after (run (OpStartCapture native_start_record_faults profile_vga properties_vga)
                    device_camB)).
Proof.
  assert (H1 : started_has_sink device_started) by (intros _; discriminate).
  assert (H2 : started_has_sink device_camB) by (intros H; discriminate H).
  split; [exact H1|]. split.
  - exact (proj1 (proj2 started_has_sink_invariant) (OpStopCapture native_ok) device_started H1).
  - exact (proj1 (proj2 started_has_sink_invariant)
             (OpStartCapture native_start_record_faults profile_vga properties_vga)
             device_camB H2).
Defined.

(** * Further properties of the code *)

(** ** The selection loop, in its own arithmetic *)

Lemma abs_diff_le (a b : Z) : Int32.abs_diff a b <= Int32.INT_MAX.
Proof.
  unfold Int32.abs_diff, Int32.abs.
  assert (H : Int32.INT_MIN <= Int32.to_int32 (Int32.to_uint32 (a - b)) <= Int32.INT_MAX).
  { unfold Int32.to_int32, Int32.to_uint32, Int32.INT_MIN, Int32.INT_MAX.
    Z.div_mod_to_equations. lia. }
  destruct (Z.eqb_spec (Int32.to_int32 (Int32.to_uint32 (a - b))) Int32.INT_MIN) as [E|E];
    unfold Int32.INT_MIN, Int32.INT_MAX in *; lia.
Qed.

Section SelectionExact.

Variable subtype : string.
Variable capability : VideoCaptureCapability.

Lemma selection_exact_init : selection_exact subtype capability [] selection_init.
Proof.
  unfold selection_exact; cbn. split; [intros prop []|reflexivity].
Qed.

Lemma selection_exact_step (seen : list VideoEncodingProperties) (st : selection)
    (prop : VideoEncodingProperties) :
  selection_exact subtype capability seen st ->
  selection_exact subtype capability (seen ++ [prop]) (select_step subtype capability st prop).
Proof.
  intros Hinv. unfold select_step.
  destruct (subtype_matches subtype prop) eqn:Hm; cbn [negb].
  - (* a format of the requested subtype *)
    pose proof (abs_diff_le (Width prop) (width capability)) as Bw.
    pose proof (abs_diff_le (Height prop) (height capability)) as Bh.
    pose proof (abs_diff_le (propFps prop) (maxFPS capability)) as Bf.
    fold (widthDiff capability prop) in Bw. fold (heightDiff capability prop) in Bh.
    fold (fpsDiff capability prop) in Bf.
    assert (Hnew : nth_error (seen ++ [prop]) (List.length seen) = Some prop).
    { rewrite nth_error_app2 by lia. rewrite Nat.sub_diag. reflexivity. }
    unfold selection_exact, first_least in Hinv.
    destruct (videoEncodingProperties st) as [f|] eqn:Hsel.
    + (* a format is already selected *)
      destruct Hinv as (Hmin & Hne & i & Hi & Hmf & Hbest).
      assert (Hi' : nth_error (seen ++ [prop]) i = Some f).
      { rewrite nth_error_app1; [exact Hi|]. apply nth_error_Some. congruence. }
      assert (Hilt : (i < List.length seen)%nat).
      { apply nth_error_Some. congruence. }
      pose proof (abs_diff_le (Width f) (width capability)) as Fw.
      pose proof (abs_diff_le (Height f) (height capability)) as Fh.
      pose proof (abs_diff_le (propFps f) (maxFPS capability)) as Ff.
      fold (widthDiff capability f) in Fw. fold (heightDiff capability f) in Fh.
      fold (fpsDiff capability f) in Ff.
      unfold diffs, initial_minima in Hmin, Hne. injection Hmin as Mw Mh Mf.
      destruct (Z.ltb_spec (widthDiff capability prop) (minWidthDiff st)) as [L1|L1];
        [|destruct (Z.eqb_spec (widthDiff capability prop) (minWidthDiff st)) as [E1|E1];
          [destruct (Z.ltb_spec (heightDiff capability prop) (minHeightDiff st)) as [L2|L2];
            [|destruct (Z.eqb_spec (heightDiff capability prop) (minHeightDiff st)) as [E2|E2];
              [destruct (Z.ltb_spec (fpsDiff capability prop) (minFpsDiff st)) as [L3|L3]|]]|]].
      all: unfold selection_exact, first_least;
        cbn [videoEncodingProperties minWidthDiff minHeightDiff minFpsDiff];
        try rewrite Hsel.
      all: split; [unfold diffs; congruence|].
      all: split;
        [unfold diffs, initial_minima; intros Heq; injection Heq as ? ? ?;
         first [lia | apply Hne; f_equal; [f_equal|]; lia]|].
      (* the new format replaces the selection *)
      1,2,3: exists (List.length seen); split; [assumption|]; split; [assumption|];
        intros j g Hj Hg; destruct (nth_error_snoc _ _ _ _ Hj) as [Hold|[-> ->]];
        [ destruct (Hbest j g Hold Hg) as [Hle _];
          assert (Hlt : lex_lt (diffs capability prop) (diffs capability g))
            by (unfold lex_le, lex_lt, diffs in *; destruct Hle as [Hle|Hle];
                [|injection Hle as ? ? ?]; lia);
          split; [left; exact Hlt | intros _; exact Hlt]
        | split; [right; reflexivity | lia] ].
      (* the selection stays *)
      all: exists i; split; [assumption|]; split; [assumption|];
        intros j g Hj Hg; destruct (nth_error_snoc _ _ _ _ Hj) as [Hold|[-> ->]];
        [ exact (Hbest j g Hold Hg)
        | split; [|lia];
          unfold lex_le, lex_lt, diffs;
          destruct (Z.eq_dec (widthDiff capability f) (widthDiff capability prop));
          destruct (Z.eq_dec (heightDiff capability f) (heightDiff capability prop));
          destruct (Z.eq_dec (fpsDiff capability f) (fpsDiff capability prop));
          try (right; congruence); left; lia ].
    + (* nothing selected yet: the minima are at their initial value *)
      destruct Hinv as (Hnone & Hmin).
      unfold initial_minima in Hmin. injection Hmin as Mw Mh Mf.
      assert (Hfirst : first_least (diffs capability) subtype (seen ++ [prop]) prop ->
                       diffs capability prop <> initial_minima ->
                       forall st', videoEncodingProperties st' = Some prop ->
                                   (minWidthDiff st', minHeightDiff st', minFpsDiff st')
                                   = diffs capability prop ->
                                   selection_exact subtype capability (seen ++ [prop]) st').
      { intros H1 H2 st' H3 H4. unfold selection_exact. rewrite H3. auto. }
      assert (Hleast : diffs capability prop <> initial_minima ->
                       first_least (diffs capability) subtype (seen ++ [prop]) prop).
      { intros Hne. exists (List.length seen); split; [assumption|]; split; [assumption|].
        intros j g Hj Hg. destruct (nth_error_snoc _ _ _ _ Hj) as [Hold|[-> ->]].
        - apply nth_error_In in Hold. pose proof (Hnone g Hold Hg) as Hg'.
          pose proof (abs_diff_le (Width prop) (width capability)).
          unfold diffs, initial_minima in *. injection Hg' as -> -> ->.
          assert (Hlt : lex_lt (widthDiff capability prop, heightDiff capability prop,
                                fpsDiff capability prop)
                               (Int32.INT_MAX, Int32.INT_MAX, Int32.INT_MAX)).
          { unfold lex_lt.
            destruct (Z.eq_dec (widthDiff capability prop) Int32.INT_MAX);
              destruct (Z.eq_dec (heightDiff capability prop) Int32.INT_MAX);
              destruct (Z.eq_dec (fpsDiff capability prop) Int32.INT_MAX);
              try (exfalso; apply Hne; congruence); lia. }
          split; [left; exact Hlt | intros _; exact Hlt].
        - split; [right; reflexivity | lia]. }
      destruct (Z.ltb_spec (widthDiff capability prop) (minWidthDiff st)) as [L1|L1];
        [|destruct (Z.eqb_spec (widthDiff capability prop) (minWidthDiff st)) as [E1|E1];
          [destruct (Z.ltb_spec (heightDiff capability prop) (minHeightDiff st)) as [L2|L2];
            [|destruct (Z.eqb_spec (heightDiff capability prop) (minHeightDiff st)) as [E2|E2];
              [destruct (Z.ltb_spec (fpsDiff capability prop) (minFpsDiff st)) as [L3|L3]|]]|]].
      1,2,3: assert (Hne : diffs capability prop <> initial_minima)
          by (unfold diffs, initial_minima; intros Heq; injection Heq as ? ? ?; lia);
        apply (Hfirst (Hleast Hne) Hne); [reflexivity|];
        cbn [minWidthDiff minHeightDiff minFpsDiff]; unfold diffs; congruence.
      all: try lia.
      (* the three differences are [INT_MAX]: nothing is selected *)
      unfold selection_exact. rewrite Hsel. split.
      * intros g Hg Hgm. apply in_app_or in Hg. destruct Hg as [Hg|[<-|[]]].
        -- exact (Hnone g Hg Hgm).
        -- unfold diffs, initial_minima. f_equal; [f_equal|]; lia.
      * unfold initial_minima. congruence.
  - (* another subtype: [continue] *)
    unfold selection_exact, first_least in *.
    destruct (videoEncodingProperties st) as [f|].
    + destruct Hinv as (Hmin & Hne & i & Hi & Hmf & Hbest).
      split; [assumption|]. split; [assumption|].
      exists i. split; [|split; [assumption|]].
      * rewrite nth_error_app1; [exact Hi|]. apply nth_error_Some. congruence.
      * intros j g Hj Hg. destruct (nth_error_snoc _ _ _ _ Hj) as [Hold|[-> ->]];
          [exact (Hbest j g Hold Hg) | congruence].
    + destruct Hinv as (Hnone & Hrest). split; [|assumption].
      intros g Hg Hgm. apply in_app_or in Hg. destruct Hg as [Hg|[<-|[]]]; [auto|congruence].
Qed.

Lemma selection_exact_loop (rest seen : list VideoEncodingProperties) (st : selection) :
  selection_exact subtype capability seen st ->
  selection_exact subtype capability (seen ++ rest) (select_loop subtype capability rest st).
Proof.
  revert seen st. induction rest as [|prop rest IH]; intros seen st Hinv.
  - rewrite app_nil_r. exact Hinv.
  - cbn [select_loop fold_left].
    replace (seen ++ prop :: rest) with ((seen ++ [prop]) ++ rest)
      by (rewrite <- app_assoc; reflexivity).
    apply IH. apply selection_exact_step. exact Hinv.
Qed.

Lemma select_loop_filter (rest : list VideoEncodingProperties) (st : selection) :
  select_loop subtype capability rest st
  = select_loop subtype capability (filter (subtype_matches subtype) rest) st.
Proof.
  revert st. induction rest as [|prop rest IH]; intros st; [reflexivity|].
  cbn [filter]. destruct (subtype_matches subtype prop) eqn:Hm.
  - cbn [select_loop fold_left]. apply IH.
  - cbn [select_loop fold_left]. unfold select_step at 2. rewrite Hm. cbn [negb]. apply IH.
Qed.

End SelectionExact.

(** X1.  Whatever the request and the offered formats are, the format the
    loop of [StartCapture] selects is the first format of the requested
    subtype whose three 32-bit differences are lexicographically least, and
    these are not all three [INT_MAX]; the loop selects nothing exactly
    when every format of the subtype has the three differences [INT_MAX],
    in particular when there is none. *)
Theorem best_match_exact :
  forall (subtype : string) (capability : VideoCaptureCapability)
         (offered : list VideoEncodingProperties),
    match best_match subtype capability offered with
    | Some f =>
        first_least (diffs capability) subtype offered f /\
        diffs capability f <> initial_minima
    | None =>
        forall prop, In prop offered -> subtype_matches subtype prop = true ->
                     diffs capability prop = initial_minima
    end.
Proof.
  intros subtype capability offered.
  pose proof (selection_exact_loop subtype capability offered [] selection_init
                (selection_exact_init subtype capability)) as H.
  cbn [app] in H. unfold selection_exact in H. unfold best_match.
  destruct (videoEncodingProperties (select_loop subtype capability offered selection_init)).
  - destruct H as (_ & H1 & H2). split; assumption.
  - destruct H as (H & _). exact H.
Qed.

Lemma best_match_exact_witness :
  first_least (diffs capability_vga) "YUY2" (GetAvailableMediaStreamProperties_result native_ok)
    (mkProps "YUY2" 640 480 (mkRatio 30 1)) /\
  diffs capability_vga (mkProps "YUY2" 640 480 (mkRatio 30 1)) <> initial_minima.
Proof.
  exact (best_match_exact "YUY2" capability_vga
           (GetAvailableMediaStreamProperties_result native_ok)).
Defined.

(** X2.  The formats of other subtypes have no part in the selection: the
    format selected among the offered formats is the one selected among
    those of the requested subtype alone. *)
Theorem best_match_filter :
  forall (subtype : string) (capability : VideoCaptureCapability)
         (offered : list VideoEncodingProperties),
    best_match subtype capability offered
    = best_match subtype capability (filter (subtype_matches subtype) offered).
Proof.
  intros subtype capability offered.
  unfold best_match. rewrite select_loop_filter. reflexivity.
Qed.

(** ** The resolution of the device in [Init] *)

Lemma wchar_eq_0 (c : ascii) : wchar c = 0 -> c = Ascii.zero.
Proof.
  unfold wchar. intros H.
  assert (Hn : nat_of_ascii c = O) by lia.
  rewrite <- (ascii_nat_embedding c), Hn. reflexivity.
Qed.

Lemma wchar_sub_eq_0 (a b : ascii) : wchar a - wchar b = 0 -> a = b.
Proof.
  unfold wchar. intros H.
  assert (Hn : nat_of_ascii a = nat_of_ascii b) by lia.
  rewrite <- (ascii_nat_embedding a), <- (ascii_nat_embedding b), Hn. reflexivity.
Qed.

(** [strncmp] over the length of a C string tests whether it is a prefix. *)
Lemma strncmp_is_prefix (id : string) :
  is_c_string id = true ->
  forall current : string,
    (strncmp current id (String.length id) =? 0) = is_prefix id current.
Proof.
  induction id as [|c id IH]; intros Hc current; [destruct current; reflexivity|].
  cbn [is_c_string] in Hc. apply andb_prop in Hc. destruct Hc as [Hc Hrest].
  destruct current as [|a current]; cbn [String.length strncmp is_prefix].
  - destruct (Z.eqb_spec (- wchar c) 0) as [E|E]; [|reflexivity].
    assert (Hz : c = Ascii.zero) by (apply wchar_eq_0; lia).
    subst c. rewrite Ascii.eqb_refl in Hc. discriminate Hc.
  - rewrite Ascii.eqb_sym. destruct (Ascii.eqb_spec c a) as [->|Hne].
    + cbn [andb]. apply IH. exact Hrest.
    + cbn [andb]. destruct (Z.eqb_spec (wchar a - wchar c) 0) as [E|E]; [|reflexivity].
      exfalso. apply Hne. symmetry. apply wchar_sub_eq_0. exact E.
Qed.

Lemma to_size_t_strlen (id : string) :
  strlen id <= Int32.INT_MAX ->
  VideoCaptureWinRT.to_size_t (Int32.to_int32 (strlen id)) = String.length id.
Proof.
  intros H. assert (Hpos : 0 <= strlen id) by (unfold strlen; lia).
  rewrite to_int32_small by (unfold Int32.INT_MIN; lia).
  unfold VideoCaptureWinRT.to_size_t, Int32.to_uint32.
  rewrite Z.mod_small by (unfold Int32.INT_MAX in H; lia).
  unfold strlen. apply Nat2Z.id.
Qed.

(** An id that fits the 256 bytes is what the buffer holds. *)
Lemma currentDeviceUniqueIdUTF8_fits (failed : string -> string) (devInfo : DeviceInformation) :
  (strlen (Id devInfo) <? 256) = true ->
  currentDeviceUniqueIdUTF8 failed devInfo = Id devInfo.
Proof.
  intros Hfit. apply Z.ltb_lt in Hfit.
  unfold currentDeviceUniqueIdUTF8, WideCharToMultiByte. cbn [negb orb Z.eqb Z.ltb Z.compare].
  destruct (Z.leb_spec (strlen (Id devInfo) + 1) 256); [reflexivity | lia].
Qed.

(** The search of [Init] and of [CreateCapabilityMap], among ids that fit
    the buffer, finds the first device whose id begins with the
    identifier. *)
Lemma find_device_is_prefix (failed : string -> string) (id : string)
    (devices : list DeviceInformation) :
  is_c_string id = true ->
  strlen id <= Int32.INT_MAX ->
  ids_fit (Some devices) = true ->
  find (fun devInfo =>
          strncmp (currentDeviceUniqueIdUTF8 failed devInfo) id
            (VideoCaptureWinRT.to_size_t (Int32.to_int32 (strlen id))) =? 0)
       devices
  = find (fun devInfo => is_prefix id (Id devInfo)) devices.
Proof.
  intros Hc Hlen. rewrite to_size_t_strlen by exact Hlen.
  induction devices as [|devInfo rest IH]; intros Hfit; [reflexivity|].
  cbn [ids_fit forallb] in Hfit. apply andb_prop in Hfit. destruct Hfit as [Hfit Hrest].
  cbn [find]. rewrite currentDeviceUniqueIdUTF8_fits by exact Hfit.
  rewrite strncmp_is_prefix by exact Hc. rewrite (IH Hrest). reflexivity.
Qed.

Arguments CaptureDevice.Initialize : simpl never.
Arguments CaptureDevice.Cleanup : simpl never.

(** [Init], once the identifier has passed the check of its length: the
    enumeration, then [Initialize] of a new device for the device found. *)
Lemma Init_unfold (k : Z) (native : Native) (id : Z) (device_unique_id : string)
    (this : VideoCaptureWinRT.state) :
  (Int32.to_int32 (strlen device_unique_id) >? k) = false ->
  VideoCaptureWinRT.Init k native id device_unique_id this
  = Init_outcome native this
      match FindAllAsync_result native with
      | Some devInfoCollection =>
          option_map Id
            (find (fun devInfo =>
                     strncmp
                       (currentDeviceUniqueIdUTF8 (WideCharToMultiByte_failed native) devInfo)
                       device_unique_id
                       (VideoCaptureWinRT.to_size_t (Int32.to_int32 (strlen device_unique_id)))
                     =? 0)
                  devInfoCollection)
      | None => None
      end.
Proof.
  intros Hk.
  destruct this as [id0 device_id0 device0].
  unfold VideoCaptureWinRT.Init, Init_outcome, Init_enumeration. rewrite Hk.
  unfold_monad. cbn [VideoCaptureWinRT._id VideoCaptureWinRT.device_].
  destruct (FindAllAsync_result native) as [devices|].
  - destruct devices as [|dev0 devices'].
    + cbn.
      destruct (CaptureDevice.Initialize native None _) as [[r device'] t].
      destruct r; cbn; rewrite ?app_nil_r; try reflexivity.
      destruct device0 as [old|]; cbn; [|rewrite ?app_nil_r; reflexivity].
      destruct (CaptureDevice.Cleanup native old) as [[r' old'] t'].
      destruct r'; cbn; rewrite ?app_nil_r; reflexivity.
    + cbn [List.length Nat.eqb].
      destruct (find _ (dev0 :: devices')) as [devInfo|]; cbn.
      * destruct (CaptureDevice.Initialize native (Some (Id devInfo)) _) as [[r device'] t].
        destruct r; cbn; rewrite ?app_nil_r; try reflexivity.
        destruct device0 as [old|]; cbn; [|rewrite ?app_nil_r; reflexivity].
        destruct (CaptureDevice.Cleanup native old) as [[r' old'] t'].
        destruct r'; cbn; rewrite ?app_nil_r; reflexivity.
      * destruct (CaptureDevice.Initialize native None _) as [[r device'] t].
        destruct r; cbn; rewrite ?app_nil_r; try reflexivity.
        destruct device0 as [old|]; cbn; [|rewrite ?app_nil_r; reflexivity].
        destruct (CaptureDevice.Cleanup native old) as [[r' old'] t'].
        destruct r'; cbn; rewrite ?app_nil_r; reflexivity.
  - cbn.
    destruct (CaptureDevice.Initialize native None _) as [[r device'] t].
    destruct r; cbn; rewrite ?app_nil_r; try reflexivity.
    destruct device0 as [old|]; cbn; [|rewrite ?app_nil_r; reflexivity].
    destruct (CaptureDevice.Cleanup native old) as [[r' old'] t'].
    destruct r'; cbn; rewrite ?app_nil_r; reflexivity.
Qed.

(** For an identifier whose length the [int32_t] holds, and enumerated ids
    that fit the buffer, the device found is the first whose id begins with
    the identifier. *)
Lemma Init_eq (k : Z) (native : Native) (id : Z) (device_unique_id : string)
    (this : VideoCaptureWinRT.state) :
  is_c_string device_unique_id = true ->
  strlen device_unique_id <= k ->
  strlen device_unique_id <= Int32.INT_MAX ->
  ids_fit (FindAllAsync_result native) = true ->
  VideoCaptureWinRT.Init k native id device_unique_id this
  = Init_outcome native this (resolve (FindAllAsync_result native) device_unique_id).
Proof.
  intros Hc Hk Hlen Hfit.
  assert (Hpos : 0 <= strlen device_unique_id) by (unfold strlen; lia).
  rewrite Init_unfold.
  - unfold resolve. destruct (FindAllAsync_result native) as [devices|]; [|reflexivity].
    rewrite find_device_is_prefix by assumption. reflexivity.
  - rewrite to_int32_small by (unfold Int32.INT_MIN; lia). lia.
Qed.

(** ** [Init] *)

Lemma Initialize_new (native : Native) (deviceId : option string)
    (callback : option IncomingFrameCallback) :
  CaptureDevice.Initialize native deviceId (CaptureDevice.new callback)
  = match GetMediaCapture_result native deviceId with
    | None => (Raised, CaptureDevice.new callback, [EvGetMediaCapture deviceId])
    | Some mediaCapture =>
        if Failed_add_result native then
          (Returned tt, set_media_capture (Some mediaCapture) (CaptureDevice.new callback),
           [EvGetMediaCapture deviceId; EvFailed_add])
        else
          (Raised, set_media_capture (Some mediaCapture) (CaptureDevice.new callback),
           [EvGetMediaCapture deviceId; EvFailed_add; EvFailed_remove])
    end.
Proof.
  unfold CaptureDevice.Initialize, CaptureDevice.DoCleanup, CaptureDevice.CleanupSink.
  unfold_monad. cbn.
  destruct (GetMediaCapture_result native deviceId); cbn; [|reflexivity].
  destruct (Failed_add_result native); reflexivity.
Qed.

Lemma count_calls_app (kind : event -> bool) (t1 t2 : list event) :
  count_calls kind (t1 ++ t2) = count_calls kind t1 + count_calls kind t2.
Proof. unfold count_calls. rewrite filter_app, length_app. lia. Qed.

Lemma Cleanup_no_GetMediaCapture (native : Native) (d : CaptureDevice.state) :
  count_calls is_GetMediaCapture (calls_of (CaptureDevice.Cleanup native d)) = 0.
Proof.
  unfold calls_of, CaptureDevice.Cleanup, CaptureDevice.DoCleanup, CaptureDevice.CleanupSink.
  unfold_monad. cbn. break_match; reflexivity.
Qed.

(** X3.  [Init] resolves the device by prefix: for an identifier, without
    a zero character, of a length that is at most
    [kVideoCaptureUniqueNameLength] and at most [INT_MAX], and an
    enumeration whose ids each fit, with the terminating zero, the 256
    bytes they are converted into, the capture object is asked for once,
    and for the id of the first enumerated device whose id begins with the
    identifier, or for the null id when there is no such device or the
    enumeration fails. *)
Theorem Init_resolves_by_prefix :
  forall (k : Z) (native : Native) (id : Z) (device_unique_id : string)
         (this : VideoCaptureWinRT.state),
    is_c_string device_unique_id = true ->
    strlen device_unique_id <= k ->
    strlen device_unique_id <= Int32.INT_MAX ->
    ids_fit (FindAllAsync_result native) = true ->
    count_calls is_GetMediaCapture
      (calls_of (VideoCaptureWinRT.Init k native id device_unique_id this)) = 1 /\
    In (EvGetMediaCapture (resolve (FindAllAsync_result native) device_unique_id))
       (calls_of (VideoCaptureWinRT.Init k native id device_unique_id this)).
Proof.
  intros k native id device_unique_id this Hc Hk Hlen Hfit.
  rewrite (Init_eq k native id device_unique_id this Hc Hk Hlen Hfit). clear Hfit.
  unfold Init_outcome, Init_enumeration. rewrite Initialize_new.
  set (resolved := resolve (FindAllAsync_result native) device_unique_id).
  pose proof (Cleanup_no_GetMediaCapture native) as Hcleanup.
  unfold calls_of in *.
  destruct (FindAllAsync_result native) as [[|dev0 devices]|];
    destruct (GetMediaCapture_result native resolved) as [mc|];
    try destruct (Failed_add_result native);
    try destruct (VideoCaptureWinRT.device_ this) as [old|];
    try (specialize (Hcleanup old);
         destruct (CaptureDevice.Cleanup native old) as [[r' old'] t']; destruct r');
    cbn [snd fst] in *;
    (split;
     [ repeat rewrite count_calls_app; rewrite ?Hcleanup; reflexivity
     | repeat (apply in_or_app; first [left; cbn; tauto | right]); cbn; tauto ]).
Qed.

Lemma Init_resolves_by_prefix_witness :
  resolve (FindAllAsync_result native_ok) "camB" = Some "camB" /\
  count_calls is_GetMediaCapture
    (calls_of (VideoCaptureWinRT.Init 1024 native_ok 7 "camB" (VideoCaptureWinRT.new 7))) = 1 /\
  In (EvGetMediaCapture (resolve (FindAllAsync_result native_ok) "camB"))
     (calls_of (VideoCaptureWinRT.Init 1024 native_ok 7 "camB" (VideoCaptureWinRT.new 7))).
Proof.
  split; [reflexivity|].
  apply (Init_resolves_by_prefix 1024 native_ok 7 "camB" (VideoCaptureWinRT.new 7)).
  - reflexivity.
  - vm_compute. discriminate.
  - vm_compute. discriminate.
  - reflexivity.
Defined.

(** X4.  For an identifier without a zero character, of a length that is
    at most [kVideoCaptureUniqueNameLength] and at most [INT_MAX], and an
    enumeration whose ids each fit, with the terminating zero, the 256
    bytes they are converted into: when the capture object of the resolved
    device can be obtained and its [Failed] handler added, [Init] returns
    [0] and the session holds the resolved id and a new device, bound and
    not started, whatever it held before: a device held so far, started or
    not, is dropped with no request to stop recording and no release of
    its sink. *)
Theorem Init_binds_new_device :
  forall (k : Z) (native : Native) (id : Z) (device_unique_id : string)
         (this : VideoCaptureWinRT.state) (mediaCapture : MediaCapture),
    is_c_string device_unique_id = true ->
    strlen device_unique_id <= k ->
    strlen device_unique_id <= Int32.INT_MAX ->
    ids_fit (FindAllAsync_result native) = true ->
    GetMediaCapture_result native (resolve (FindAllAsync_result native) device_unique_id)
    = Some mediaCapture ->
    Failed_add_result native = true ->
    result_of (VideoCaptureWinRT.Init k native id device_unique_id this) = Returned 0 /\
    state_after (VideoCaptureWinRT.Init k native id device_unique_id this)
    = VideoCaptureWinRT.mkState (VideoCaptureWinRT._id this)
        (resolve (FindAllAsync_result native) device_unique_id)
        (Some (CaptureDevice.mkState (Some mediaCapture) None
                 (Some (FrameCallback (VideoCaptureWinRT._id this))) false 0 0 0
                 kVideoUnknown)) /\
    forall e, In e (calls_of (VideoCaptureWinRT.Init k native id device_unique_id this)) ->
              is_StopRecordAsync e = false /\ is_Sink_delete e = false /\
              is_MediaSampleEvent_remove e = false /\ is_Failed_remove e = false.
Proof.
  intros k native id device_unique_id this mediaCapture Hc Hk Hlen Hfit Hmc Hadd.
  rewrite (Init_eq k native id device_unique_id this Hc Hk Hlen Hfit). clear Hfit.
  unfold Init_outcome, Init_enumeration. rewrite Initialize_new, Hmc, Hadd.
  unfold result_of, state_after, calls_of. cbn [fst snd].
  split; [reflexivity|]. split; [reflexivity|].
  intros e He.
  destruct (FindAllAsync_result native) as [[|dev0 devices]|]; cbn in He;
    split_In; subst e; cbn; auto.
Qed.

Lemma Init_binds_new_device_witness :
  result_of (VideoCaptureWinRT.Init 1024 native_ok 7 "camA" session_started) = Returned 0 /\
  state_after (VideoCaptureWinRT.Init 1024 native_ok 7 "camA" session_started)
  = VideoCaptureWinRT.mkState 7 (Some "camA")
      (Some (CaptureDevice.mkState (Some (mkMediaCapture (Some "camA"))) None
               (Some (FrameCallback 7)) false 0 0 0 kVideoUnknown)).
Proof.
  pose proof (Init_binds_new_device 1024 native_ok 7 "camA" session_started
                (mkMediaCapture (Some "camA"))) as H.
  destruct H as [H1 [H2 _]].
  - reflexivity.
  - vm_compute. discriminate.
  - vm_compute. discriminate.
  - reflexivity.
  - reflexivity.
  - reflexivity.
  - split; [exact H1 | exact H2].
Defined.

(** X5.  For an identifier without a zero character, of a length that is
    at most [kVideoCaptureUniqueNameLength] and at most [INT_MAX], and an
    enumeration whose ids each fit, with the terminating zero, the 256
    bytes they are converted into: when the capture object of the resolved
    device cannot be obtained, or its [Failed] handler cannot be added,
    what [Init] returns depends on what the session held.  Holding no
    device, it returns [0], keeps the resolved id and holds no device.
    Holding a device, it cleans that device up and, when the cleanup
    returns, returns [-1] with neither id nor device; when the cleanup does
    not return, [Init] ends as the cleanup did and the session still holds
    the device. *)
Theorem Init_failure_outcome :
  forall (k : Z) (native : Native) (id : Z) (device_unique_id : string)
         (this : VideoCaptureWinRT.state),
    is_c_string device_unique_id = true ->
    strlen device_unique_id <= k ->
    strlen device_unique_id <= Int32.INT_MAX ->
    ids_fit (FindAllAsync_result native) = true ->
    GetMediaCapture_result native (resolve (FindAllAsync_result native) device_unique_id)
      = None \/ Failed_add_result native = false ->
    match VideoCaptureWinRT.device_ this with
    | None =>
        result_of (VideoCaptureWinRT.Init k native id device_unique_id this) = Returned 0 /\
        state_after (VideoCaptureWinRT.Init k native id device_unique_id this)
        = VideoCaptureWinRT.mkState (VideoCaptureWinRT._id this)
            (resolve (FindAllAsync_result native) device_unique_id) None
    | Some old =>
        match result_of (CaptureDevice.Cleanup native old) with
        | Returned _ =>
            result_of (VideoCaptureWinRT.Init k native id device_unique_id this)
            = Returned (-1) /\
            state_after (VideoCaptureWinRT.Init k native id device_unique_id this)
            = VideoCaptureWinRT.mkState (VideoCaptureWinRT._id this) None None
        | Raised =>
            result_of (VideoCaptureWinRT.Init k native id device_unique_id this) = Raised /\
            VideoCaptureWinRT.device_
              (state_after (VideoCaptureWinRT.Init k native id device_unique_id this))
            = Some (state_after (CaptureDevice.Cleanup native old))
        | Aborted why =>
            result_of (VideoCaptureWinRT.Init k native id device_unique_id this)
            = Aborted why /\
            VideoCaptureWinRT.device_
              (state_after (VideoCaptureWinRT.Init k native id device_unique_id this))
            = Some (state_after (CaptureDevice.Cleanup native old))
        end
    end.
Proof.
  intros k native id device_unique_id this Hc Hk Hlen Hfit Hfail.
  rewrite (Init_eq k native id device_unique_id this Hc Hk Hlen Hfit). clear Hfit.
  unfold Init_outcome, Init_enumeration. rewrite Initialize_new.
  unfold result_of, state_after.
  destruct (VideoCaptureWinRT.device_ this) as [old|];
    [destruct (CaptureDevice.Cleanup native old) as [[r' old'] t']; destruct r'|];
    destruct Hfail as [Hfail | Hfail]; rewrite Hfail;
    try destruct (GetMediaCapture_result native _);
    cbn [fst snd]; split; reflexivity.
Qed.

Lemma Init_failure_outcome_witness :
  result_of (VideoCaptureWinRT.Init 1024 native_no_capture 7 "camB" session_started)
  = Returned (-1) /\
  state_after (VideoCaptureWinRT.Init 1024 native_no_capture 7 "camB" session_started)
  = VideoCaptureWinRT.mkState 7 None None.
Proof.
  apply (Init_failure_outcome 1024 native_no_capture 7 "camB" session_started).
  - reflexivity.
  - vm_compute. discriminate.
  - vm_compute. discriminate.
  - reflexivity.
  - left. reflexivity.
Defined.

(** ** The capture device *)

(** X6.  The sinks of a device are accounted for by its calls: however an
    operation ends, the device holds as many sinks afterwards as it held
    before, plus those the operation created, minus those it deleted; each
    sink created has its sample handler added, and each sink deleted has
    had it removed. *)
Theorem sinks_balance :
  forall (o : operation) (d : CaptureDevice.state),
    sinks (state_after (run o d))
    = sinks d + count_calls is_Sink_new (calls_of (run o d))
      - count_calls is_Sink_delete (calls_of (run o d)) /\
    count_calls is_MediaSampleEvent_add (calls_of (run o d))
    = count_calls is_Sink_new (calls_of (run o d)) /\
    count_calls is_MediaSampleEvent_remove (calls_of (run o d))
    = count_calls is_Sink_delete (calls_of (run o d)).
Proof.
  intros o d. destruct d as [mc sink cb started w h f r].
  unfold sinks, state_after, calls_of.
  destruct o; cbn [run]; unfold_device; unfold_monad; cbn;
    break_match; cbn; repeat split; reflexivity.
Qed.

(** X7.  No operation unbinds a device or changes its frame callback: the
    capture object is replaced by [Initialize] alone, when the platform
    gives one, and is otherwise kept, by [Cleanup] too. *)
Theorem media_capture_kept :
  forall (o : operation) (d : CaptureDevice.state),
    incoming_frame_callback_ (state_after (run o d)) = incoming_frame_callback_ d /\
    media_capture_ (state_after (run o d))
    = match o with
      | OpInitialize native deviceId =>
          match GetMediaCapture_result native deviceId with
          | Some mediaCapture => Some mediaCapture
          | None => media_capture_ d
          end
      | _ => media_capture_ d
      end.
Proof.
  intros o d. destruct d as [mc sink cb started w h f r].
  unfold state_after.
  destruct o; cbn [run]; unfold_device; unfold_monad; cbn;
    break_match; cbn; split; reflexivity.
Qed.

(** X8.  [Cleanup] asks the platform to stop recording exactly when the
    device is bound and started, and then once; it ends otherwise than by
    returning only when that request does. *)
Theorem Cleanup_stop_request :
  forall (native : Native) (d : CaptureDevice.state),
    count_calls is_StopRecordAsync (calls_of (CaptureDevice.Cleanup native d))
    = (if is_some (media_capture_ d) && capture_started_ d then 1 else 0) /\
    (result_of (CaptureDevice.Cleanup native d) <> Returned tt ->
     is_some (media_capture_ d) && capture_started_ d = true /\
     StopRecordAsync_result native <> Completed).
Proof.
  intros native d. destruct d as [mc sink cb started w h f r].
  unfold result_of, calls_of, CaptureDevice.Cleanup, CaptureDevice.DoCleanup,
    CaptureDevice.CleanupSink.
  unfold_monad. cbn.
  destruct mc, sink, started; cbn; try destruct (StopRecordAsync_result native); cbn;
    split; try reflexivity; intros H; try (split; [reflexivity | discriminate]);
    exfalso; apply H; reflexivity.
Qed.

Lemma Cleanup_stop_request_witness :
  is_some (media_capture_ device_started) && capture_started_ device_started = true /\
  StopRecordAsync_result native_stop_faults <> Completed.
Proof.
  apply (proj2 (Cleanup_stop_request native_stop_faults device_started)).
  vm_compute. discriminate.
Defined.

(** X9.  A [Cleanup] that returns leaves a device that satisfies the
    invariant without a sink and not started, still bound to its capture
    object; a second [Cleanup] then returns with the device as it is, and
    all it does is to remove the [Failed] handler of a bound device
    again. *)
Theorem Cleanup_releases :
  forall (native native' : Native) (d : CaptureDevice.state),
    started_has_sink d ->
    result_of (CaptureDevice.Cleanup native d) = Returned tt ->
    media_sink_ (state_after (CaptureDevice.Cleanup native d)) = None /\
    capture_started_ (state_after (CaptureDevice.Cleanup native d)) = false /\
    media_capture_ (state_after (CaptureDevice.Cleanup native d)) = media_capture_ d /\
    CaptureDevice.Cleanup native' (state_after (CaptureDevice.Cleanup native d))
    = (Returned tt, state_after (CaptureDevice.Cleanup native d),
       if is_some (media_capture_ d) then [EvFailed_remove; EvFailed_remove] else []).
Proof.
  intros native native' d Hinv. destruct d as [mc sink cb started w h f r].
  unfold started_has_sink in Hinv. cbn in Hinv.
  unfold result_of, state_after, CaptureDevice.Cleanup, CaptureDevice.DoCleanup,
    CaptureDevice.CleanupSink.
  unfold_monad. cbn.
  destruct mc, sink, started; cbn; try destruct (StopRecordAsync_result native); cbn;
    intros H; try discriminate H; try (exfalso; apply Hinv; reflexivity);
    repeat split; reflexivity.
Qed.

Lemma Cleanup_releases_witness :
  media_sink_ (state_after (CaptureDevice.Cleanup native_ok device_started)) = None /\
  capture_started_ (state_after (CaptureDevice.Cleanup native_ok device_started)) = false /\
  media_capture_ (state_after (CaptureDevice.Cleanup native_ok device_started))
  = media_capture_ device_started /\
  CaptureDevice.Cleanup native_stop_faults
    (state_after (CaptureDevice.Cleanup native_ok device_started))
  = (Returned tt, state_after (CaptureDevice.Cleanup native_ok device_started),
     if is_some (media_capture_ device_started) then [EvFailed_remove; EvFailed_remove] else []).
Proof.
  apply (Cleanup_releases native_ok native_stop_faults device_started).
  - intros _. discriminate.
  - reflexivity.
Defined.

(** ** The session *)

Lemma bound_preserved (o : operation) (d : CaptureDevice.state) :
  media_capture_ d <> None -> media_capture_ (state_after (run o d)) <> None.
Proof.
  destruct d as [mc sink cb started w h f r]. unfold state_after.
  destruct o; cbn [run]; unfold_device; unfold_monad; cbn;
    break_match; cbn; intros H; try exact H; try discriminate; congruence.
Qed.

Lemma bound_no_null_dereference (o : operation) (d : CaptureDevice.state) :
  media_capture_ d <> None -> result_of (run o d) <> Aborted NullDereference.
Proof.
  destruct d as [mc sink cb started w h f r]. unfold result_of.
  destruct o; cbn [run]; unfold_device; unfold_monad; cbn;
    break_match; cbn; intros H; try discriminate; congruence.
Qed.

Lemma Cleanup_no_null_dereference (native : Native) (d : CaptureDevice.state) :
  result_of (CaptureDevice.Cleanup native d) <> Aborted NullDereference.
Proof.
  destruct d as [mc sink cb started w h f r]. unfold result_of.
  unfold CaptureDevice.Cleanup, CaptureDevice.DoCleanup, CaptureDevice.CleanupSink.
  unfold_monad. cbn. break_match; cbn; discriminate.
Qed.

Lemma then_ret_tt {S A : Type} (m : M S A) (s : S) :
  state_after ((m ;; ret tt) s) = state_after (m s) /\
  forall why, result_of ((m ;; ret tt) s) = Aborted why -> result_of (m s) = Aborted why.
Proof.
  unfold state_after, result_of, bind, ret.
  destruct (m s) as [[r s1] t1]. destruct r; cbn; split; auto; intros why0 H;
    first [discriminate H | inversion H; reflexivity].
Qed.

Lemma device_ok (o : operation) (d : CaptureDevice.state) :
  media_capture_ d <> None /\ started_has_sink d ->
  media_capture_ (state_after (run o d)) <> None /\ started_has_sink (state_after (run o d)).
Proof.
  intros [Hb Hs]. split.
  - apply bound_preserved. exact Hb.
  - apply started_has_sink_preserved. exact Hs.
Qed.

Lemma Init_session_ok (k : Z) (native : Native) (id : Z) (device_unique_id : string)
    (this : VideoCaptureWinRT.state) :
  session_ok this ->
  session_ok (state_after (VideoCaptureWinRT.Init k native id device_unique_id this)) /\
  result_of (VideoCaptureWinRT.Init k native id device_unique_id this)
  <> Aborted NullDereference.
Proof.
  intros Hok.
  destruct (Int32.to_int32 (strlen device_unique_id) >? k) eqn:Hk.
  - unfold VideoCaptureWinRT.Init. rewrite Hk. unfold_monad. cbn.
    split; [exact Hok | discriminate].
  - rewrite (Init_unfold k native id device_unique_id this Hk).
    unfold Init_outcome. rewrite Initialize_new.
    unfold session_ok, state_after, result_of in *.
    destruct (GetMediaCapture_result native _) as [mc|];
      [destruct (Failed_add_result native)|].
    + cbn. split; [|discriminate]. intros d Hd. inversion Hd; subst d. cbn.
      split; [discriminate | intros H; discriminate H].
    + destruct (VideoCaptureWinRT.device_ this) as [old|] eqn:Hold;
        [|cbn; split; [intros d Hd; discriminate Hd | discriminate]].
      pose proof (device_ok (OpCleanup native) old (Hok old eq_refl)) as Hold'.
      pose proof (Cleanup_no_null_dereference native old) as Hnull.
      unfold state_after, result_of in Hold', Hnull. cbn [run] in Hold'.
      destruct (CaptureDevice.Cleanup native old) as [[r' old'] t']. cbn [fst snd] in *.
      destruct r'; cbn; (split; [intros d Hd; inversion Hd; subst; assumption|]);
        try discriminate; congruence.
    + destruct (VideoCaptureWinRT.device_ this) as [old|] eqn:Hold;
        [|cbn; split; [intros d Hd; discriminate Hd | discriminate]].
      pose proof (device_ok (OpCleanup native) old (Hok old eq_refl)) as Hold'.
      pose proof (Cleanup_no_null_dereference native old) as Hnull.
      unfold state_after, result_of in Hold', Hnull. cbn [run] in Hold'.
      destruct (CaptureDevice.Cleanup native old) as [[r' old'] t']. cbn [fst snd] in *.
      destruct r'; cbn; (split; [intros d Hd; inversion Hd; subst; assumption|]);
        try discriminate; congruence.
Qed.

Lemma StartCapture_session_ok (native : Native) (capability : VideoCaptureCapability)
    (this : VideoCaptureWinRT.state) :
  session_ok this ->
  session_ok (state_after (VideoCaptureWinRT.StartCapture native capability this)) /\
  (result_of (VideoCaptureWinRT.StartCapture native capability this)
   = Aborted NullDereference -> VideoCaptureWinRT.device_ this = None).
Proof.
  intros Hok.
  destruct (VideoCaptureWinRT.subtype_of_rawType (rawType capability)) as [subtype|] eqn:Hs;
    [destruct (GetMediaCapture_result native (VideoCaptureWinRT.device_id_ this))
       as [mediaCapture|] eqn:Hlookup|].
  - assert (Hl : GetMediaCapture_result native (VideoCaptureWinRT.device_id_ this) <> None)
      by (rewrite Hlookup; discriminate).
    destruct (VideoCaptureWinRT.device_ this) as [d|] eqn:Hd.
    + rewrite (VideoCaptureWinRT_StartCapture_eq native capability this subtype d Hs Hd Hl).
      pose proof (device_ok
                    (OpStartCapture native (VideoCaptureWinRT.encoding_profile subtype capability)
                       (best_match subtype capability
                          (GetAvailableMediaStreamProperties_result native)))
                    d (Hok d Hd)) as Hd'.
      pose proof (bound_no_null_dereference
                    (OpStartCapture native (VideoCaptureWinRT.encoding_profile subtype capability)
                       (best_match subtype capability
                          (GetAvailableMediaStreamProperties_result native)))
                    d (proj1 (Hok d Hd))) as Hnull.
      unfold state_after, result_of in *. cbn [run] in Hd', Hnull.
      destruct (CaptureDevice.StartCapture native _ _ d) as [[r d'] t]. cbn [fst snd] in *.
      split.
      * intros d0 Hd0. cbn in Hd0. inversion Hd0; subst d0. exact Hd'.
      * destruct r; cbn; intros H; try discriminate H. exfalso. apply Hnull.
        inversion H. reflexivity.
    + rewrite (VideoCaptureWinRT_StartCapture_no_device native capability this subtype Hs Hd
                 Hl).
      unfold state_after. cbn. split; [exact Hok | reflexivity].
  - rewrite (VideoCaptureWinRT_StartCapture_lookup_throws native capability this subtype Hs
               Hlookup).
    unfold state_after, result_of. cbn. split; [exact Hok | discriminate].
  - rewrite (VideoCaptureWinRT_StartCapture_unsupported native capability this Hs).
    unfold state_after, result_of. cbn. split; [exact Hok | discriminate].
Qed.

Lemma StopCapture_session_ok (native : Native) (this : VideoCaptureWinRT.state) :
  session_ok this ->
  session_ok (state_after (VideoCaptureWinRT.StopCapture native this)) /\
  (result_of (VideoCaptureWinRT.StopCapture native this) = Aborted NullDereference ->
   VideoCaptureWinRT.device_ this = None).
Proof.
  intros Hok.
  destruct (VideoCaptureWinRT.device_ this) as [d|] eqn:Hd.
  - rewrite (VideoCaptureWinRT_StopCapture_eq native this d Hd).
    pose proof (device_ok (OpStopCapture native) d (Hok d Hd)) as Hd'.
    pose proof (bound_no_null_dereference (OpStopCapture native) d (proj1 (Hok d Hd)))
      as Hnull.
    unfold state_after, result_of in *. cbn [run] in Hd', Hnull.
    destruct (CaptureDevice.StopCapture native d) as [[r d'] t]. cbn [fst snd] in *.
    split.
    + intros d0 Hd0. cbn in Hd0. inversion Hd0; subst d0. exact Hd'.
    + destruct r; cbn; intros H; try discriminate H. exfalso. apply Hnull.
      inversion H. reflexivity.
  - split; [|reflexivity].
    unfold VideoCaptureWinRT.StopCapture. unfold_monad. rewrite Hd. cbn. exact Hok.
Qed.

(** X10.  A session holds no device or a device that is bound to a capture
    object and has a sink when it is started: the constructor establishes
    it and [Init], [StartCapture], [StopCapture] and [CaptureStarted]
    preserve it however they end.  On such a session no operation
    dereferences a null pointer unless the session holds no device: the
    capture object of a held device is never null when the device's
    [StartCapture] or [StopCapture] reach for it. *)
Theorem session_ok_invariant :
  (forall id : Z, session_ok (VideoCaptureWinRT.new id)) /\
  (forall (o : session_operation) (this : VideoCaptureWinRT.state),
      session_ok this ->
      session_ok (state_after (run_session o this)) /\
      (result_of (run_session o this) = Aborted NullDereference ->
       VideoCaptureWinRT.device_ this = None)).
Proof.
  split.
  - intros id d Hd. discriminate Hd.
  - intros o this Hok. destruct o as [k native id uid | native capability | native |];
      cbn [run_session].
    + destruct (then_ret_tt (VideoCaptureWinRT.Init k native id uid) this) as [Hs Hr].
      rewrite Hs. destruct (Init_session_ok k native id uid this Hok) as [H1 H2].
      split; [exact H1|]. intros H. apply Hr in H. contradiction.
    + destruct (then_ret_tt (VideoCaptureWinRT.StartCapture native capability) this)
        as [Hs Hr].
      rewrite Hs. destruct (StartCapture_session_ok native capability this Hok) as [H1 H2].
      split; [exact H1|]. intros H. apply Hr in H. exact (H2 H).
    + destruct (then_ret_tt (VideoCaptureWinRT.StopCapture native) this) as [Hs Hr].
      rewrite Hs. destruct (StopCapture_session_ok native this Hok) as [H1 H2].
      split; [exact H1|]. intros H. apply Hr in H. exact (H2 H).
    + destruct (then_ret_tt VideoCaptureWinRT.CaptureStarted this) as [Hs Hr].
      rewrite Hs. unfold VideoCaptureWinRT.CaptureStarted, CaptureDevice.CaptureStarted.
      unfold_monad. unfold state_after, result_of in *.
      destruct (VideoCaptureWinRT.device_ this) as [d|] eqn:Hd; cbn.
      * split; [|discriminate]. intros d0 Hd0. inversion Hd0; subst d0. exact (Hok d Hd).
      * split; [exact Hok | reflexivity].
Qed.

Lemma session_ok_invariant_witness :
  session_ok
    (state_after
       (run_session (SessionStartCapture native_start_record_faults capability_vga)
          (state_after
             (run_session (SessionInit 1024 native_ok 7 "camB") (VideoCaptureWinRT.new 7))))).
Proof.
  apply (proj2 session_ok_invariant).
  apply (proj2 session_ok_invariant).
  apply (proj1 session_ok_invariant).
Defined.

(** X18.  On a session that holds a device which has a sink when it is
    started: [StopCapture] on a device that is not started does nothing and
    returns [0]; on a started and bound device it returns [0] when the
    platform's stop request completes.  Whenever [StopCapture] returns, it
    returns [0], the device is no longer started, the sink of a device that
    was started has been released, and a further [StopCapture] does nothing
    and returns [0]. *)
Theorem StopCapture_returns_stopped :
  forall (native : Native) (this : VideoCaptureWinRT.state) (d : CaptureDevice.state),
    VideoCaptureWinRT.device_ this = Some d ->
    started_has_sink d ->
    (capture_started_ d = false ->
     VideoCaptureWinRT.StopCapture native this = (Returned 0, this, [])) /\
    (capture_started_ d = true ->
     media_capture_ d <> None ->
     StopRecordAsync_result native = Completed ->
     result_of (VideoCaptureWinRT.StopCapture native this) = Returned 0) /\
    (forall r,
        result_of (VideoCaptureWinRT.StopCapture native this) = Returned r ->
        r = 0 /\
        (exists d',
            VideoCaptureWinRT.device_ (state_after (VideoCaptureWinRT.StopCapture native this))
              = Some d' /\
            capture_started_ d' = false /\
            (capture_started_ d = true -> media_sink_ d' = None)) /\
        forall native',
          VideoCaptureWinRT.StopCapture native'
            (state_after (VideoCaptureWinRT.StopCapture native this))
          = (Returned 0, state_after (VideoCaptureWinRT.StopCapture native this), [])).
Proof.
  intros native this d Hd Hinv.
  pose proof (VideoCaptureWinRT_StopCapture_eq native this d Hd) as Heq.
  rewrite CaptureDevice_StopCapture_eq in Heq.
  split; [|split].
  - intros Hs. exact (VideoCaptureWinRT_StopCapture_not_started native this d Hd Hs).
  - intros Hs Hmc Hc. rewrite Heq, Hs, Hc.
    destruct (media_capture_ d); [|congruence].
    destruct (media_sink_ d); reflexivity.
  - intros r Hr. rewrite Heq in *. clear Heq.
    unfold started_has_sink in Hinv.
    destruct (capture_started_ d) eqn:Hs.
    + specialize (Hinv eq_refl).
      destruct (media_capture_ d) eqn:Hmc; [|discriminate Hr].
      destruct (StopRecordAsync_result native); try discriminate Hr.
      destruct (media_sink_ d) eqn:Hsink; [|congruence].
      unfold result_of, state_after in *. cbn [fst snd StopCapture_result] in *.
      split; [congruence|]. split.
      * eexists. split; [reflexivity|]. cbn. auto.
      * intros native'.
        apply VideoCaptureWinRT_StopCapture_not_started
          with (d := set_capture_started false (set_media_sink None d)); reflexivity.
    + unfold result_of, state_after in *. cbn [fst snd StopCapture_result] in *.
      split; [congruence|]. split.
      * exists d. split; [reflexivity|]. split; [exact Hs | discriminate].
      * intros native'.
        apply VideoCaptureWinRT_StopCapture_not_started with (d := d);
          [reflexivity | exact Hs].
Qed.

Lemma StopCapture_returns_stopped_witness :
  VideoCaptureWinRT.StopCapture native_ok session_camB = (Returned 0, session_camB, []) /\
  result_of (VideoCaptureWinRT.StopCapture native_ok session_started) = Returned 0.
Proof.
  assert (H1 : started_has_sink device_camB) by (intros H; discriminate H).
  assert (H2 : started_has_sink device_started) by (intros _; discriminate).
  split.
  - exact (proj1 (StopCapture_returns_stopped native_ok session_camB device_camB eq_refl H1)
             eq_refl).
  - refine (proj1 (proj2 (StopCapture_returns_stopped native_ok session_started device_started
                            eq_refl H2)) eq_refl _ eq_refl).
    discriminate.
Defined.

Lemma VideoCaptureWinRT_StartCapture_success (native : Native)
    (capability : VideoCaptureCapability) (this : VideoCaptureWinRT.state)
    (d : CaptureDevice.state) :
  VideoCaptureWinRT.device_ this = Some d ->
  media_capture_ d <> None ->
  started_has_sink d ->
  result_of (VideoCaptureWinRT.StartCapture native capability this) = Returned 0 <->
  exists subtype,
    VideoCaptureWinRT.subtype_of_rawType (rawType capability) = Some subtype /\
    GetMediaCapture_result native (VideoCaptureWinRT.device_id_ this) <> None /\
    capture_started_ d = false /\
    InitializeAsync_result native = Completed /\
    SetMediaStreamPropertiesAsync_result native
      (best_match subtype capability (GetAvailableMediaStreamProperties_result native))
    = Completed /\
    StartRecordToCustomSinkAsync_result native = Completed.
Proof.
  intros Hd Hb Hinv. split.
  - intros H0.
    destruct (VideoCaptureWinRT.subtype_of_rawType (rawType capability)) as [subtype|] eqn:Hs.
    + exists subtype. split; [reflexivity|].
      destruct (GetMediaCapture_result native (VideoCaptureWinRT.device_id_ this))
        as [mediaCapture|] eqn:Hlookup.
      * assert (Hl : GetMediaCapture_result native (VideoCaptureWinRT.device_id_ this)
                     <> None) by (rewrite Hlookup; discriminate).
        rewrite <- Hlookup. split; [exact Hl|].
        rewrite (VideoCaptureWinRT_StartCapture_eq native capability this subtype d Hs Hd Hl)
          in H0.
        destruct (capture_started_ d) eqn:Hstarted.
        -- rewrite (CaptureDevice_StartCapture_started native _ _ d Hinv Hstarted) in H0.
           discriminate H0.
        -- split; [reflexivity|].
           pose proof (CaptureDevice_StartCapture_returns native
                         (VideoCaptureWinRT.encoding_profile subtype capability)
                         (best_match subtype capability
                            (GetAvailableMediaStreamProperties_result native)) d) as Hret.
           unfold result_of in *.
           destruct (CaptureDevice.StartCapture native _ _ d) as [[r d'] t].
           cbn [fst snd] in *.
           destruct r as [[]| |]; try discriminate H0.
           destruct (Hret eq_refl) as [H1 [H2 [H3 _]]]. auto.
      * rewrite (VideoCaptureWinRT_StartCapture_lookup_throws native capability this subtype
                   Hs Hlookup) in H0.
        discriminate H0.
    + rewrite (VideoCaptureWinRT_StartCapture_unsupported native capability this Hs) in H0.
      discriminate H0.
  - intros [subtype [Hs [Hl [Hstarted [H1 [H2 H3]]]]]].
    rewrite (VideoCaptureWinRT_StartCapture_eq native capability this subtype d Hs Hd Hl).
    pose proof (CaptureDevice_StartCapture_succeeds native
                  (VideoCaptureWinRT.encoding_profile subtype capability)
                  (best_match subtype capability
                     (GetAvailableMediaStreamProperties_result native)) d
                  Hstarted Hb H1 H2 H3) as [Hret _].
    unfold result_of in *.
    destruct (CaptureDevice.StartCapture native _ _ d) as [[r d'] t]. cbn [fst snd] in *.
    rewrite Hret. reflexivity.
Qed.



(** X12.  From any state of a session that holds a bound device, which has
    a sink when it is started, stopping and then starting succeeds when
    the lookup of the capture object succeeds and the platform completes
    each request: [StopCapture] returns [0], the [StartCapture] that
    follows returns [0] for every request of a supported raw type, and
    [CaptureStarted] then answers true. *)
Theorem StopCapture_then_StartCapture :
  forall (native : Native) (capability : VideoCaptureCapability)
         (this : VideoCaptureWinRT.state) (d : CaptureDevice.state) (subtype : string),
    VideoCaptureWinRT.device_ this = Some d ->
    media_capture_ d <> None ->
    started_has_sink d ->
    VideoCaptureWinRT.subtype_of_rawType (rawType capability) = Some subtype ->
    GetMediaCapture_result native (VideoCaptureWinRT.device_id_ this) <> None ->
    StopRecordAsync_result native = Completed ->
    InitializeAsync_result native = Completed ->
    SetMediaStreamPropertiesAsync_result native
      (best_match subtype capability (GetAvailableMediaStreamProperties_result native))
    = Completed ->
    StartRecordToCustomSinkAsync_result native = Completed ->
    let stopped := state_after (VideoCaptureWinRT.StopCapture native this) in
    let restarted := state_after (VideoCaptureWinRT.StartCapture native capability stopped) in
    result_of (VideoCaptureWinRT.StopCapture native this) = Returned 0 /\
    result_of (VideoCaptureWinRT.StartCapture native capability stopped) = Returned 0 /\
    result_of (VideoCaptureWinRT.CaptureStarted restarted) = Returned true.
Proof.
  intros native capability this d subtype Hd Hb Hinv Hs Hl Hstop H1 H2 H3 stopped restarted.
  assert (Hstopped :
            result_of (VideoCaptureWinRT.StopCapture native this) = Returned 0 /\
            VideoCaptureWinRT.device_id_ stopped = VideoCaptureWinRT.device_id_ this /\
            exists d', VideoCaptureWinRT.device_ stopped = Some d' /\
                       media_capture_ d' <> None /\ capture_started_ d' = false).
  { subst stopped restarted.
    rewrite (VideoCaptureWinRT_StopCapture_eq native this d Hd).
    rewrite CaptureDevice_StopCapture_eq. rewrite Hstop.
    destruct d as [mc sink cb started w h f r]. cbn in Hb, Hinv |- *.
    unfold started_has_sink in Hinv. cbn in Hinv.
    destruct started; cbn.
    - destruct mc as [mc|]; [|contradiction]. destruct sink as [sink|]; cbn.
      + split; [reflexivity|]. split; [reflexivity|].
        eexists. split; [reflexivity|]. cbn. split; [discriminate|].
        reflexivity.
      + exfalso. apply Hinv; reflexivity.
    - split; [reflexivity|]. split; [reflexivity|].
      eexists. split; [reflexivity|]. cbn. split; [exact Hb|].
      reflexivity. }
  destruct Hstopped as [Hr [Hid [d' [Hd' [Hb' Hstarted']]]]].
  split; [exact Hr|].
  assert (Hinv' : started_has_sink d').
  { intros H. rewrite H in Hstarted'. discriminate Hstarted'. }
  assert (Hstart : result_of (VideoCaptureWinRT.StartCapture native capability stopped)
                   = Returned 0).
  { apply (VideoCaptureWinRT_StartCapture_success native capability stopped d' Hd' Hb'
             Hinv').
    exists subtype. rewrite Hid. auto 10. }
  split; [exact Hstart|].
  destruct (VideoCaptureWinRT_StartCapture_returns_0 native capability stopped Hstart)
    as [d'' [Hd'' [Hstarted'' _]]].
  subst restarted.
  unfold VideoCaptureWinRT.CaptureStarted, CaptureDevice.CaptureStarted.
  unfold_monad. rewrite Hd''. unfold result_of. cbn. rewrite Hstarted''. reflexivity.
Qed.

Lemma StopCapture_then_StartCapture_witness :
  let stopped := state_after (VideoCaptureWinRT.StopCapture native_ok session_started) in
  let restarted :=
    state_after (VideoCaptureWinRT.StartCapture native_ok capability_hd stopped) in
  result_of (VideoCaptureWinRT.StopCapture native_ok session_started) = Returned 0 /\
  result_of (VideoCaptureWinRT.StartCapture native_ok capability_hd stopped) = Returned 0 /\
  result_of (VideoCaptureWinRT.CaptureStarted restarted) = Returned true.
Proof.
  apply (StopCapture_then_StartCapture native_ok capability_hd session_started device_started
           "YUY2").
  - reflexivity.
  - discriminate.
  - intros _. discriminate.
  - reflexivity.
  - cbn. discriminate.
  - reflexivity.
  - reflexivity.
  - reflexivity.
  - reflexivity.
Defined.

(** ** The format a start records *)







(** ** The device information class *)

(** X14.  [CreateCapabilityMap], for an identifier without a zero
    character whose length is at most [INT_MAX], and an enumeration whose
    ids each fit, with the terminating zero, the 256 bytes they are
    converted into.  It discards the capabilities held so far before
    anything else.  An identifier longer than
    [kVideoCaptureUniqueNameLength] gives [-1].  Every other identifier
    gives [0], whether or not a device is found: the capabilities are then
    those of the first enumerated device whose id begins with the
    identifier, one for each format it offers and in their order, when its
    capture object initializes, and none otherwise.  The frame rate of a
    capability is the numerator of the format's rate, not divided by its
    denominator. *)
Theorem CreateCapabilityMap_outcome :
  forall (k : Z) (default_rawType : RawVideoType) (platform : DeviceInfoWinRT.Platform)
         (deviceUniqueIdUTF8 : string) (this : DeviceInfoWinRT.state),
    is_c_string deviceUniqueIdUTF8 = true ->
    strlen deviceUniqueIdUTF8 <= Int32.INT_MAX ->
    ids_fit (DeviceInfoWinRT.FindAllAsync_result platform) = true ->
    DeviceInfoWinRT.CreateCapabilityMap k default_rawType platform deviceUniqueIdUTF8 this
    = if k <? strlen deviceUniqueIdUTF8
      then (-1, DeviceInfoWinRT.mkState (DeviceInfoWinRT._id this) [])
      else
        (0,
         DeviceInfoWinRT.mkState (DeviceInfoWinRT._id this)
           match
             resolve (DeviceInfoWinRT.FindAllAsync_result platform) deviceUniqueIdUTF8
           with
           | Some deviceId =>
               match DeviceInfoWinRT.InitializeAsync_result platform deviceId with
               | Completed =>
                   map (fun prop =>
                          mkCapability (Int32.to_int32 (Width prop))
                            (Int32.to_int32 (Height prop))
                            (Int32.to_int32 (Numerator (FrameRate prop))) default_rawType)
                       (DeviceInfoWinRT.GetAvailableMediaStreamProperties_result platform
                          deviceId)
               | Faulted | Threw => []
               end
           | None => []
           end).
Proof.
  intros k default_rawType platform id this Hc Hlen Hfit.
  assert (Hpos : 0 <= strlen id) by (unfold strlen; lia).
  unfold DeviceInfoWinRT.CreateCapabilityMap, resolve.
  cbn [DeviceInfoWinRT._id].
  rewrite (to_int32_small (strlen id)) by (unfold Int32.INT_MIN; lia).
  rewrite Z.gtb_ltb.
  destruct (k <? strlen id); [reflexivity|].
  destruct (DeviceInfoWinRT.FindAllAsync_result platform) as [devices|]; [|reflexivity].
  pose proof (find_device_is_prefix (DeviceInfoWinRT.WideCharToMultiByte_failed platform)
                id devices Hc Hlen Hfit) as Hfind.
  rewrite (to_int32_small (strlen id)) in Hfind by (unfold Int32.INT_MIN; lia).
  rewrite Hfind.
  destruct (find (fun devInfo => is_prefix id (Id devInfo)) devices) as [chosen|];
    reflexivity.
Qed.

Lemma CreateCapabilityMap_outcome_witness :
  DeviceInfoWinRT.CreateCapabilityMap 1024 kVideoUnknown platform_two_cameras "camB"
    (DeviceInfoWinRT.mkState 7 [capability_vga])
  = (0,
     DeviceInfoWinRT.mkState 7
       [mkCapability 640 480 30 kVideoUnknown; mkCapability 1280 720 30000 kVideoUnknown]).
Proof.
  rewrite (CreateCapabilityMap_outcome 1024 kVideoUnknown platform_two_cameras "camB"
             (DeviceInfoWinRT.mkState 7 [capability_vga])).
  - reflexivity.
  - reflexivity.
  - vm_compute. discriminate.
  - reflexivity.
Defined.

Lemma GetDeviceInfo_loop_skip (deviceNumber : Z) (out : DeviceInfoWinRT.out_parameters)
    (devices : list DeviceInformation) :
  forall (i : Z) (buffers : DeviceInfoWinRT.out_buffers),
    (Int32.to_uint32 (Int32.to_int32 deviceNumber) < i \/
     i + Z.of_nat (List.length devices) <= Int32.to_uint32 (Int32.to_int32 deviceNumber)) ->
    DeviceInfoWinRT.GetDeviceInfo_loop devices i deviceNumber out buffers = Returned buffers.
Proof.
  induction devices as [|devInfo rest IH]; intros i buffers H; [reflexivity|].
  cbn [DeviceInfoWinRT.GetDeviceInfo_loop List.length] in *.
  destruct (Z.eqb_spec i (Int32.to_uint32 (Int32.to_int32 deviceNumber))) as [E|E]; [lia|].
  apply IH. lia.
Qed.

Lemma GetDeviceInfo_loop_at (deviceNumber : Z) (out : DeviceInfoWinRT.out_parameters)
    (devInfo : DeviceInformation) (devices : list DeviceInformation) :
  forall (n : nat) (i : Z) (buffers : DeviceInfoWinRT.out_buffers),
    nth_error devices n = Some devInfo ->
    Int32.to_uint32 (Int32.to_int32 deviceNumber) = i + Z.of_nat n ->
    DeviceInfoWinRT.GetDeviceInfo_loop devices i deviceNumber out buffers
    = DeviceInfoWinRT.GetDeviceInfo_write devInfo out.
Proof.
  induction devices as [|first rest IH]; intros n i buffers Hn Hi;
    [destruct n; discriminate Hn|].
  cbn [DeviceInfoWinRT.GetDeviceInfo_loop].
  destruct n as [|n]; cbn [nth_error] in Hn.
  - inversion Hn; subst first.
    replace (i =? Int32.to_uint32 (Int32.to_int32 deviceNumber)) with true
      by (symmetry; apply Z.eqb_eq; lia).
    destruct (DeviceInfoWinRT.GetDeviceInfo_write devInfo out) as [buffers'| |why];
      try reflexivity.
    apply GetDeviceInfo_loop_skip. left. lia.
  - replace (i =? Int32.to_uint32 (Int32.to_int32 deviceNumber)) with false
      by (symmetry; apply Z.eqb_neq; lia).
    apply (IH n (i + 1) buffers Hn). lia.
Qed.

Lemma to_uint32_to_int32 (z : Z) : Int32.to_uint32 (Int32.to_int32 z) = Int32.to_uint32 z.
Proof.
  unfold Int32.to_int32, Int32.to_uint32.
  Z.div_mod_to_equations. lia.
Qed.

Lemma to_uint32_small (z : Z) : 0 <= z < 4294967296 -> Int32.to_uint32 z = z.
Proof. intros H. unfold Int32.to_uint32. apply Z.mod_small. lia. Qed.

Lemma WideCharToMultiByte_room (src : string) (cbMultiByte : Z) :
  strlen src < cbMultiByte <= Int32.INT_MAX ->
  snd (WideCharToMultiByte src true (Int32.to_int32 cbMultiByte))
  = Holds src.
Proof.
  intros H. assert (Hpos : 0 <= strlen src) by (unfold strlen; lia).
  unfold WideCharToMultiByte.
  rewrite to_int32_small by (unfold Int32.INT_MIN; lia). cbn [negb orb].
  destruct (Z.eqb_spec cbMultiByte 0); [lia|].
  destruct (Z.ltb_spec cbMultiByte 0); [lia|].
  destruct (Z.leb_spec (strlen src + 1) cbMultiByte); [reflexivity | lia].
Qed.

(** X15.  [GetDeviceName] for the number of a device of an enumeration of
    at most [INT_MAX] devices writes a zero to the product id without
    testing the pointer: given a null product id it dereferences it.  Given
    one that is not null it returns [0] with the empty string as the
    product id, whether or not the name and the id could be converted; the
    caller's buffer for the name, and likewise the one for the id, holds
    the text when its pointer is not null and the length given for it is
    greater than the length of the text, to have room for the terminating
    zero, and at most [INT_MAX], the length being passed on as an [int]. *)
Theorem GetDeviceName_found :
  forall (platform : DeviceInfoWinRT.Platform) (devices : list DeviceInformation)
         (n : nat) (devInfo : DeviceInformation) (out : DeviceInfoWinRT.out_parameters),
    DeviceInfoWinRT.FindAllAsync_result platform = Some devices ->
    Z.of_nat (List.length devices) <= Int32.INT_MAX ->
    nth_error devices n = Some devInfo ->
    if DeviceInfoWinRT.productUniqueIdUTF8 out then
      exists name uid : buffer,
        DeviceInfoWinRT.GetDeviceName platform (Z.of_nat n) out
        = Returned (0, DeviceInfoWinRT.mkBuffers name uid (Holds "")) /\
        (DeviceInfoWinRT.deviceNameUTF8 out = true ->
         strlen (Name devInfo) < DeviceInfoWinRT.deviceNameLength out <= Int32.INT_MAX ->
         name = Holds (Name devInfo)) /\
        (DeviceInfoWinRT.deviceUniqueIdUTF8 out = true ->
         strlen (Id devInfo) < DeviceInfoWinRT.deviceUniqueIdUTF8Length out <= Int32.INT_MAX ->
         uid = Holds (Id devInfo))
    else DeviceInfoWinRT.GetDeviceName platform (Z.of_nat n) out = Aborted NullDereference.
Proof.
  intros platform devices n devInfo out Hfind Hsize Hn.
  assert (Hlt : (n < List.length devices)%nat).
  { apply nth_error_Some. rewrite Hn. discriminate. }
  assert (Hn32 : Int32.to_int32 (Z.of_nat n) = Z.of_nat n).
  { apply to_int32_small. unfold Int32.INT_MIN, Int32.INT_MAX in *. lia. }
  assert (Hat : Int32.to_uint32 (Int32.to_int32 (Z.of_nat n)) = 0 + Z.of_nat n).
  { rewrite Hn32. rewrite to_uint32_small; [lia|]. unfold Int32.INT_MAX in *. lia. }
  unfold DeviceInfoWinRT.GetDeviceName, DeviceInfoWinRT.GetDeviceInfo. rewrite Hfind.
  rewrite (GetDeviceInfo_loop_at (Z.of_nat n) out devInfo devices n 0 DeviceInfoWinRT.untouched
             Hn Hat).
  unfold DeviceInfoWinRT.GetDeviceInfo_write.
  destruct (DeviceInfoWinRT.productUniqueIdUTF8 out); [|reflexivity].
  eexists. eexists. split; [|split].
  - rewrite Hn32. rewrite (to_int32_small (Z.of_nat (List.length devices)))
      by (unfold Int32.INT_MIN; lia).
    destruct (Z.gtb_spec (Z.of_nat (List.length devices)) (Z.of_nat n)); [reflexivity | lia].
  - intros Hname Hroom. rewrite Hname. apply WideCharToMultiByte_room. exact Hroom.
  - intros Hid Hroom. rewrite Hid. apply WideCharToMultiByte_room. exact Hroom.
Qed.

Lemma GetDeviceName_found_witness :
  exists name uid : buffer,
    DeviceInfoWinRT.GetDeviceName platform_two_cameras 1 out_256
    = Returned (0, DeviceInfoWinRT.mkBuffers name uid (Holds "")) /\
    name = Holds "Camera B" /\
    uid = Holds "camB".
Proof.
  destruct (GetDeviceName_found platform_two_cameras
              [mkDeviceInformation "camA" "Camera A"; mkDeviceInformation "camB" "Camera B"]
              1 (mkDeviceInformation "camB" "Camera B") out_256)
    as [name [uid [Hresult [Hname Hid]]]].
  - reflexivity.
  - vm_compute. discriminate.
  - reflexivity.
  - exists name, uid. split; [exact Hresult|]. split.
    + apply Hname; [reflexivity|]. vm_compute. split; [reflexivity | discriminate].
    + apply Hid; [reflexivity|]. vm_compute. split; [reflexivity | discriminate].
Defined.

(** X16.  [GetDeviceName] for a number that no enumerated device has
    writes to none of the buffers.  It returns [-1] when the number is at
    most [INT_MAX], also when the enumeration fails; for a number from 2^31
    on, which is negative as the [int32_t] it is compared as, it returns
    [0]. *)
Theorem GetDeviceName_absent :
  forall (platform : DeviceInfoWinRT.Platform) (deviceNumber : Z)
         (out : DeviceInfoWinRT.out_parameters),
    0 <= deviceNumber < 4294967296 ->
    match DeviceInfoWinRT.FindAllAsync_result platform with
    | Some devices => Z.of_nat (List.length devices) <= Z.min deviceNumber Int32.INT_MAX
    | None => True
    end ->
    DeviceInfoWinRT.GetDeviceName platform deviceNumber out
    = Returned (if deviceNumber <=? Int32.INT_MAX then -1 else 0, DeviceInfoWinRT.untouched).
Proof.
  intros platform deviceNumber out Hrange Hdevices.
  unfold DeviceInfoWinRT.GetDeviceName, DeviceInfoWinRT.GetDeviceInfo.
  assert (Hcmp : forall count : Z,
             0 <= count <= Z.min deviceNumber Int32.INT_MAX ->
             (if count >? Int32.to_int32 deviceNumber then 0 else -1)
             = (if deviceNumber <=? Int32.INT_MAX then -1 else 0)).
  { intros count Hcount.
    destruct (Z.leb_spec deviceNumber Int32.INT_MAX) as [Hle|Hgt].
    - rewrite to_int32_small by (unfold Int32.INT_MIN; lia).
      destruct (Z.gtb_spec count deviceNumber); [lia | reflexivity].
    - assert (Hneg : Int32.to_int32 deviceNumber < 0).
      { unfold Int32.to_int32, Int32.INT_MAX in *. Z.div_mod_to_equations. lia. }
      destruct (Z.gtb_spec count (Int32.to_int32 deviceNumber)); [reflexivity | lia]. }
  destruct (DeviceInfoWinRT.FindAllAsync_result platform) as [devices|].
  - rewrite GetDeviceInfo_loop_skip.
    + rewrite to_int32_small by (unfold Int32.INT_MIN; lia).
      rewrite Hcmp by lia. reflexivity.
    + right. rewrite to_uint32_to_int32, to_uint32_small by exact Hrange. lia.
  - rewrite (Hcmp 0) by (unfold Int32.INT_MAX; lia). reflexivity.
Qed.

Lemma GetDeviceName_absent_witness :
  DeviceInfoWinRT.GetDeviceName platform_two_cameras 2 out_256
  = Returned (-1, DeviceInfoWinRT.untouched) /\
  DeviceInfoWinRT.GetDeviceName platform_two_cameras 2147483648 out_256
  = Returned (0, DeviceInfoWinRT.untouched).
Proof.
  split.
  - apply (GetDeviceName_absent platform_two_cameras 2 out_256).
    + lia.
    + vm_compute. discriminate.
  - apply (GetDeviceName_absent platform_two_cameras 2147483648 out_256).
    + lia.
    + vm_compute. discriminate.
Defined.

(** X17.  [NumberOfDevices] is the number of enumerated devices when there
    are at most 255, and [0] when the enumeration fails.  With 256 devices
    or more the device of number 255, for which it asks with null buffers,
    exists, and the zero written to its product id is written through a
    null pointer. *)
Theorem NumberOfDevices_count :
  forall (platform : DeviceInfoWinRT.Platform),
    match DeviceInfoWinRT.FindAllAsync_result platform with
    | Some devices =>
        Z.of_nat (List.length devices) <= Int32.INT_MAX ->
        DeviceInfoWinRT.NumberOfDevices platform
        = if Z.of_nat (List.length devices) <=? 255
          then Returned (Z.of_nat (List.length devices))
          else Aborted NullDereference
    | None => DeviceInfoWinRT.NumberOfDevices platform = Returned 0
    end.
Proof.
  intros platform.
  unfold DeviceInfoWinRT.NumberOfDevices, DeviceInfoWinRT.GetDeviceInfo.
  destruct (DeviceInfoWinRT.FindAllAsync_result platform) as [devices|]; [|reflexivity].
  intros Hsize.
  destruct (Z.leb_spec (Z.of_nat (List.length devices)) 255) as [Hle|Hgt].
  - rewrite GetDeviceInfo_loop_skip by (right; vm_compute (Int32.to_uint32 _); lia).
    rewrite to_int32_small by (unfold Int32.INT_MIN; lia).
    rewrite to_uint32_small by lia. reflexivity.
  - destruct (nth_error devices 255) as [devInfo|] eqn:Hn.
    + rewrite (GetDeviceInfo_loop_at 255 _ devInfo devices 255%nat 0 DeviceInfoWinRT.untouched
                 Hn) by reflexivity.
      reflexivity.
    + apply nth_error_None in Hn. lia.
Qed.

Lemma NumberOfDevices_count_witness :
  DeviceInfoWinRT.NumberOfDevices platform_two_cameras = Returned 2.
Proof.
  apply (NumberOfDevices_count platform_two_cameras).
  vm_compute. discriminate.
Defined.
